(** * claude-code-sdk-go: the protocol decoder and the process life cycle

    A shallow embedding of [claude.go], [types.go] and [errors.go], and the
    properties of the decoder, of the argument builder and of the two query
    drivers ([Query] and [QueryStream]) that the specification states.

    Layout: the Go values and standard-library operations the code relies on,
    the types of [types.go] and [errors.go], the decoder ([parseMessage] and
    what it calls), the argument builder, the child process as the parent
    observes it, the two drivers, and then the theorems. *)

From Stdlib Require Import ZArith Ascii String List.
From Stdlib Require Import Floats.PrimFloat Floats.SpecFloat Floats.FloatOps.
From stdpp Require Import base option list strings gmap pretty sorting.

Set Warnings "-register-all".
Local Open Scope string_scope.
Local Open Scope list_scope.
Local Open Scope Z_scope.

(** ** Go values *)

(** What [encoding/json] stores in an [interface{}]: [nil], [bool],
    [float64], [string], [[]interface{}] and [map[string]interface{}]. *)
Inductive value : Type :=
  | VNil
  | VBool (b : bool)
  | VFloat64 (f : float)
  | VString (s : string)
  | VSlice (l : list value)
  | VMap (m : gmap string value).

(** [m[k]]: a missing key reads as the nil interface. *)
Definition index (m : gmap string value) (k : string) : value :=
  default VNil (m !! k).

(** The type assertions [v.(string)], [v.(bool)], [v.(float64)],
    [v.([]interface{})] and [v.(map[string]interface{})] in their comma-ok
    form. *)
Definition assert_string (v : value) : option string :=
  match v with VString s => Some s | _ => None end.

Definition assert_bool (v : value) : option bool :=
  match v with VBool b => Some b | _ => None end.

Definition assert_float64 (v : value) : option float :=
  match v with VFloat64 f => Some f | _ => None end.

Definition assert_slice (v : value) : option (list value) :=
  match v with VSlice l => Some l | _ => None end.

Definition assert_map (v : value) : option (gmap string value) :=
  match v with VMap m => Some m | _ => None end.

(** [time.Time], as an instant on the time line. *)
Definition Time : Type := Z.

(** ** errors.go *)

Inductive error : Type :=
  | ClaudeSDKError (Message : string) (Cause : option error)
  | CLINotFoundError (Path : string)
  | CLIConnectionError (Message : string) (Cause : option error)
  | ProcessError (ExitCode : Z) (Stderr Stdout : string)
  | CLIJSONDecodeError (Data : string) (Cause : option error)
  | ExitError (ExitCode : Z)      (* *exec.ExitError, from cmd.Wait *)
  | ErrorString (msg : string).   (* fmt.Errorf and the libraries' own errors *)

Definition is_JSONDecodeError (e : error) : bool :=
  match e with CLIJSONDecodeError _ _ => true | _ => false end.

Definition is_ConnectionError (e : error) : bool :=
  match e with CLIConnectionError _ _ => true | _ => false end.

Definition is_ProcessError (e : error) : bool :=
  match e with ProcessError _ _ _ => true | _ => false end.

(** A Go function returning [(T, error)] of which one is nil. *)
Inductive result (A : Type) : Type :=
  | Ok (a : A)
  | Err (e : error).
Arguments Ok {A} a.
Arguments Err {A} e.

Definition bind {A B : Type} (r : result A) (k : A -> result B) : result B :=
  match r with
  | Ok a => k a
  | Err e => Err e
  end.

Notation "x <- r ;;; k" := (bind r (fun x => k))
  (at level 100, r at next level, right associativity).

Definition is_Err {A : Type} (r : result A) : bool :=
  match r with Ok _ => false | Err _ => true end.

(** ** types.go *)

Definition MessageType : Type := string.
Definition MessageTypeAssistant : MessageType := "assistant".
Definition MessageTypeUser : MessageType := "user".
Definition MessageTypeSystem : MessageType := "system".
Definition MessageTypeResult : MessageType := "result".

Definition ContentBlockType : Type := string.
Definition ContentBlockTypeText : ContentBlockType := "text".
Definition ContentBlockTypeToolUse : ContentBlockType := "tool_use".
Definition ContentBlockTypeToolResult : ContentBlockType := "tool_result".

(** The three implementations of the [ContentBlock] interface. A nil
    [Input] map is [None]. *)
Inductive ContentBlock : Type :=
  | TextBlock (Text : string)
  | ToolUseBlock (ID Name : string) (Input : option (gmap string value))
  | ToolResultBlock (ToolUseID : string) (Content : value) (IsError : bool).

Definition ContentBlock_Type (b : ContentBlock) : ContentBlockType :=
  match b with
  | TextBlock _ => ContentBlockTypeText
  | ToolUseBlock _ _ _ => ContentBlockTypeToolUse
  | ToolResultBlock _ _ _ => ContentBlockTypeToolResult
  end.

Module AssistantMessage.
Record t : Type := Build {
  ContentBlocks : list ContentBlock;
  ParentToolUseID : option string;
  SessionID : string;
  CreatedAt : Time }.
End AssistantMessage.

Module UserMessage.
Record t : Type := Build {
  ContentBlocks : list ContentBlock;
  ParentToolUseID : option string;
  SessionID : string;
  CreatedAt : Time }.
End UserMessage.

Module MCPServer.
Record t : Type := Build { Name : string; Status : string }.
End MCPServer.

Module SystemMessage.
Record t : Type := Build {
  Subtype : string;
  APIKeySource : option string;
  Cwd : option string;
  SessionID : string;
  Tools : list string;
  MCPServers : list MCPServer.t;
  Model : option string;
  PermissionMode : option string;
  CreatedAt : Time }.
End SystemMessage.

Module Usage.
Record t : Type := Build { InputTokens : Z; OutputTokens : Z }.
End Usage.

Module ResultMessage.
Record t : Type := Build {
  Subtype : string;
  DurationMs : Z;
  DurationAPIMs : Z;
  IsError : bool;
  NumTurns : Z;
  SessionID : string;
  TotalCostUSD : option float;
  Usage : option Usage.t;
  Result : option string;
  CreatedAt : Time }.
End ResultMessage.

(** The [Message] interface: one of the four pointer types. *)
Inductive Message : Type :=
  | Assistant (m : AssistantMessage.t)
  | User (m : UserMessage.t)
  | System (m : SystemMessage.t)
  | Result (m : ResultMessage.t).

Definition Message_Type (msg : Message) : MessageType :=
  match msg with
  | Assistant _ => MessageTypeAssistant
  | User _ => MessageTypeUser
  | System _ => MessageTypeSystem
  | Result _ => MessageTypeResult
  end.

Definition Message_Content (msg : Message) : list ContentBlock :=
  match msg with
  | Assistant m => AssistantMessage.ContentBlocks m
  | User m => UserMessage.ContentBlocks m
  | System _ => []
  | Result m =>
      match ResultMessage.Result m with
      | Some r => [TextBlock r]
      | None => []
      end
  end.

Definition Message_Timestamp (msg : Message) : Time :=
  match msg with
  | Assistant m => AssistantMessage.CreatedAt m
  | User m => UserMessage.CreatedAt m
  | System m => SystemMessage.CreatedAt m
  | Result m => ResultMessage.CreatedAt m
  end.

Definition Message_SessionID (msg : Message) : string :=
  match msg with
  | Assistant m => AssistantMessage.SessionID m
  | User m => UserMessage.SessionID m
  | System m => SystemMessage.SessionID m
  | Result m => ResultMessage.SessionID m
  end.

(** The message with its [CreatedAt] field replaced. *)
Definition with_CreatedAt (ts : Time) (msg : Message) : Message :=
  match msg with
  | Assistant m =>
      Assistant (AssistantMessage.Build (AssistantMessage.ContentBlocks m)
        (AssistantMessage.ParentToolUseID m) (AssistantMessage.SessionID m) ts)
  | User m =>
      User (UserMessage.Build (UserMessage.ContentBlocks m)
        (UserMessage.ParentToolUseID m) (UserMessage.SessionID m) ts)
  | System m =>
      System (SystemMessage.Build (SystemMessage.Subtype m)
        (SystemMessage.APIKeySource m) (SystemMessage.Cwd m)
        (SystemMessage.SessionID m) (SystemMessage.Tools m)
        (SystemMessage.MCPServers m) (SystemMessage.Model m)
        (SystemMessage.PermissionMode m) ts)
  | Result m =>
      Result (ResultMessage.Build (ResultMessage.Subtype m)
        (ResultMessage.DurationMs m) (ResultMessage.DurationAPIMs m)
        (ResultMessage.IsError m) (ResultMessage.NumTurns m)
        (ResultMessage.SessionID m) (ResultMessage.TotalCostUSD m)
        (ResultMessage.Usage m) (ResultMessage.Result m) ts)
  end.

Definition OutputFormat : Type := string.
Definition OutputFormatText : OutputFormat := "text".
Definition OutputFormatJSON : OutputFormat := "json".
Definition OutputFormatStreamJSON : OutputFormat := "stream-json".

Module McpServerConfig.
Record t : Type := Build {
  Transport : list string;
  Env : gmap string value }.
End McpServerConfig.

Module Options.
Record t : Type := Build {
  Model : option string;
  SystemPrompt : option string;
  AppendSystemPrompt : option string;
  MaxTurns : option Z;
  Continue : option bool;
  Resume : option string;
  AllowedTools : list string;
  DisallowedTools : list string;
  MCPTools : list string;
  MCPServers : gmap string McpServerConfig.t;
  MCPConfig : option string;
  PermissionMode : option string;
  PermissionPromptTool : option string;
  DangerouslySkipPermissions : option bool;
  Cwd : option string;
  AddDir : list string;
  InputFormat : option string;
  OutputFormat : option OutputFormat;
  Debug : option bool;
  Verbose : option bool;
  AbortController : value;
  Executable : option string }.

(** [&Options{}] *)
Definition zero : t :=
  Build None None None None None None [] [] [] ∅ None None None None None []
        None None None None VNil None.
End Options.

(** ** The Go standard library, as far as the code calls it *)

Class GoRuntime : Type := {
  (** [json.Unmarshal([]byte(line), &rawMessage)] into a
      [map[string]interface{}] *)
  json_Unmarshal : string -> result (gmap string value);
  (** [json.Marshal] of [{"mcpServers": servers}] *)
  json_Marshal_mcpConfig : gmap string McpServerConfig.t -> result string;
  (** [fmt.Sprintf("%v", x)] *)
  fmt_Sprintf_v : value -> string;
  (** [time.Parse(time.RFC3339, ts)] *)
  time_Parse_RFC3339 : string -> result Time;
  (** the conversion [int(f)] of a [float64] *)
  int_of_float64 : float -> Z }.

(** ** The decoder (claude.go, [parseMessage] and below)

    A Go [*string] is an [option string]; [var xs []T] followed by
    [append] is a list that grows at its end. Every function that reads
    [time.Now()] takes the reading as its argument [now]. *)

Section Decoder.
Context `{GoRuntime}.

Definition parseTimestamp (now : Time) (rawMessage : gmap string value) : Time :=
  let timestamp := now in
  match assert_string (index rawMessage "timestamp") with
  | Some ts =>
      match time_Parse_RFC3339 ts with
      | Ok parsed => parsed
      | Err _ => timestamp
      end
  | None => timestamp
  end.

Definition parseCommonFields (rawMessage : gmap string value)
  : string * option string :=
  let sessionID := default "" (assert_string (index rawMessage "session_id")) in
  let parentToolUseID :=
    default "" (assert_string (index rawMessage "parent_tool_use_id")) in
  let parentToolUseIDPtr :=
    if decide (parentToolUseID <> "") then Some parentToolUseID else None in
  (sessionID, parentToolUseIDPtr).

Definition parseStringPtr (rawMessage : gmap string value) (key : string)
  : option string :=
  match assert_string (index rawMessage key) with
  | Some value => if decide (value <> "") then Some value else None
  | None => None
  end.

Definition parseToolsArray (rawMessage : gmap string value) : list string :=
  match rawMessage !! "tools" with
  | Some toolsData =>
      match assert_slice toolsData with
      | Some toolsArray =>
          fold_left (fun tools tool =>
                       match assert_string tool with
                       | Some toolStr => tools ++ [toolStr]
                       | None => tools
                       end) toolsArray []
      | None => []
      end
  | None => []
  end.

Definition parseMCPServers (rawMessage : gmap string value) : list MCPServer.t :=
  match rawMessage !! "mcp_servers" with
  | Some mcpData =>
      match assert_slice mcpData with
      | Some mcpArray =>
          fold_left (fun mcpServers server =>
                       match assert_map server with
                       | Some serverMap =>
                           let name := default "" (assert_string (index serverMap "name")) in
                           let status := default "" (assert_string (index serverMap "status")) in
                           mcpServers ++ [MCPServer.Build name status]
                       | None => mcpServers
                       end) mcpArray []
      | None => []
      end
  | None => []
  end.

Definition parseUsage (rawMessage : gmap string value) : option Usage.t :=
  match rawMessage !! "usage" with
  | Some usageData =>
      match assert_map usageData with
      | Some usageMap =>
          let inputTokens :=
            default 0%float (assert_float64 (index usageMap "input_tokens")) in
          let outputTokens :=
            default 0%float (assert_float64 (index usageMap "output_tokens")) in
          Some (Usage.Build (int_of_float64 inputTokens) (int_of_float64 outputTokens))
      | None => None
      end
  | None => None
  end.

(** [parseContentBlock]: a single element of a content array, or a content
    object on its own. *)
Definition parseContentBlock (rawBlock : value) : result ContentBlock :=
  match assert_map rawBlock with
  | None =>
      match assert_string rawBlock with
      | Some str => Ok (TextBlock str)
      | None =>
          Err (CLIJSONDecodeError (fmt_Sprintf_v rawBlock)
                 (Some (ErrorString "invalid content block format")))
      end
  | Some blockMap =>
      match assert_string (index blockMap "type") with
      | None =>
          match assert_string (index blockMap "text") with
          | Some text => Ok (TextBlock text)
          | None =>
              Err (CLIJSONDecodeError (fmt_Sprintf_v rawBlock)
                     (Some (ErrorString "missing content block type")))
          end
      | Some blockType =>
          if decide (blockType = ContentBlockTypeText) then
            match assert_string (index blockMap "text") with
            | Some text => Ok (TextBlock text)
            | None =>
                Err (CLIJSONDecodeError (fmt_Sprintf_v rawBlock)
                       (Some (ErrorString "missing text in text block")))
            end
          else if decide (blockType = ContentBlockTypeToolUse) then
            let id := default "" (assert_string (index blockMap "id")) in
            let name := default "" (assert_string (index blockMap "name")) in
            let input := assert_map (index blockMap "input") in
            Ok (ToolUseBlock id name input)
          else if decide (blockType = ContentBlockTypeToolResult) then
            let toolUseID := default "" (assert_string (index blockMap "tool_use_id")) in
            let content := index blockMap "content" in
            let isError := default false (assert_bool (index blockMap "is_error")) in
            Ok (ToolResultBlock toolUseID content isError)
          else
            Err (CLIJSONDecodeError (fmt_Sprintf_v rawBlock)
                   (Some (ErrorString ("unknown content block type: " +:+ blockType))))
      end
  end.

(** The [for _, rawBlock := range content] loop of [parseContentBlocks]:
    [blocks] is the slice built so far; the first failure leaves the loop
    with the error alone. *)
Fixpoint parseContentBlocks_range (content : list value) (blocks : list ContentBlock)
  : result (list ContentBlock) :=
  match content with
  | [] => Ok blocks
  | rawBlock :: rest =>
      block <- parseContentBlock rawBlock ;;;
      parseContentBlocks_range rest (blocks ++ [block])
  end.

Definition parseContentBlocks (rawContent : value) : result (list ContentBlock) :=
  let blocks : list ContentBlock := [] in
  match rawContent with
  | VString content => Ok (blocks ++ [TextBlock content])
  | VSlice content => parseContentBlocks_range content blocks
  | VMap content =>
      block <- parseContentBlock (VMap content) ;;;
      Ok (blocks ++ [block])
  | _ =>
      Err (CLIJSONDecodeError (fmt_Sprintf_v rawContent)
             (Some (ErrorString "invalid content format")))
  end.

Definition parseMessageContent (rawMessage : gmap string value)
  : result (list ContentBlock) :=
  match rawMessage !! "message" with
  | Some msgData =>
      match assert_map msgData with
      | Some msgMap =>
          match msgMap !! "content" with
          | Some content => parseContentBlocks content
          | None => Ok []
          end
      | None => Ok []
      end
  | None => Ok []
  end.

Definition parseSystemMessage (rawMessage : gmap string value)
    (sessionID : string) (timestamp : Time) : result Message :=
  let subtype := default "" (assert_string (index rawMessage "subtype")) in
  Ok (System (SystemMessage.Build
        subtype
        (parseStringPtr rawMessage "apiKeySource")
        (parseStringPtr rawMessage "cwd")
        sessionID
        (parseToolsArray rawMessage)
        (parseMCPServers rawMessage)
        (parseStringPtr rawMessage "model")
        (parseStringPtr rawMessage "permissionMode")
        timestamp)).

Definition parseAssistantMessage (rawMessage : gmap string value)
    (sessionID : string) (parentToolUseIDPtr : option string) (timestamp : Time)
  : result Message :=
  contentBlocks <- parseMessageContent rawMessage ;;;
  Ok (Assistant (AssistantMessage.Build contentBlocks parentToolUseIDPtr sessionID timestamp)).

Definition parseUserMessage (rawMessage : gmap string value)
    (sessionID : string) (parentToolUseIDPtr : option string) (timestamp : Time)
  : result Message :=
  contentBlocks <- parseMessageContent rawMessage ;;;
  Ok (User (UserMessage.Build contentBlocks parentToolUseIDPtr sessionID timestamp)).

Definition parseResultMessage (rawMessage : gmap string value)
    (sessionID : string) (timestamp : Time) : result Message :=
  let subtype := default "" (assert_string (index rawMessage "subtype")) in
  let durationMs := default 0%float (assert_float64 (index rawMessage "duration_ms")) in
  let durationAPIMs := default 0%float (assert_float64 (index rawMessage "duration_api_ms")) in
  let isError := default false (assert_bool (index rawMessage "is_error")) in
  let numTurns := default 0%float (assert_float64 (index rawMessage "num_turns")) in
  let totalCostUSD := default 0%float (assert_float64 (index rawMessage "total_cost_usd")) in
  let totalCostUSDPtr :=
    if PrimFloat.ltb 0%float totalCostUSD then Some totalCostUSD else None in
  let resultPtr :=
    match rawMessage !! "result" with
    | Some result => Some (fmt_Sprintf_v result)
    | None => None
    end in
  Ok (Result (ResultMessage.Build
        subtype
        (int_of_float64 durationMs)
        (int_of_float64 durationAPIMs)
        isError
        (int_of_float64 numTurns)
        sessionID
        totalCostUSDPtr
        (parseUsage rawMessage)
        resultPtr
        timestamp)).

Definition parseMessage (now : Time) (rawMessage : gmap string value)
  : result Message :=
  match assert_string (index rawMessage "type") with
  | None =>
      Err (CLIJSONDecodeError (fmt_Sprintf_v (VMap rawMessage))
             (Some (ErrorString "missing or invalid message type")))
  | Some messageType =>
      let timestamp := parseTimestamp now rawMessage in
      let '(sessionID, parentToolUseIDPtr) := parseCommonFields rawMessage in
      if decide (messageType = "system") then
        parseSystemMessage rawMessage sessionID timestamp
      else if decide (messageType = MessageTypeAssistant) then
        parseAssistantMessage rawMessage sessionID parentToolUseIDPtr timestamp
      else if decide (messageType = MessageTypeUser) then
        parseUserMessage rawMessage sessionID parentToolUseIDPtr timestamp
      else if decide (messageType = "result") then
        parseResultMessage rawMessage sessionID timestamp
      else
        Ok (System (SystemMessage.Build messageType None None sessionID [] []
                      None None timestamp))
  end.

End Decoder.

(** ** The argument builder (claude.go, [buildCommandArgs]) *)

Section Arguments.
Context `{GoRuntime}.

Definition addPromptArgs (args : list string) (options : Options.t) : list string :=
  let args :=
    match Options.SystemPrompt options with
    | Some p => if decide (p <> "") then args ++ ["--system-prompt"; p] else args
    | None => args
    end in
  let args :=
    match Options.AppendSystemPrompt options with
    | Some p => if decide (p <> "") then args ++ ["--append-system-prompt"; p] else args
    | None => args
    end in
  let args :=
    match Options.MaxTurns options with
    | Some n => args ++ ["--max-turns"; pretty n]
    | None => args
    end in
  args.

Definition addModelAndToolArgs (args : list string) (options : Options.t) : list string :=
  let args :=
    match Options.Model options with
    | Some m => if decide (m <> "") then args ++ ["--model"; m] else args
    | None => args
    end in
  let args :=
    if bool_decide (0 < length (Options.AllowedTools options))%nat
    then args ++ ["--allowedTools"; String.concat "," (Options.AllowedTools options)]
    else args in
  let args :=
    if bool_decide (0 < length (Options.DisallowedTools options))%nat
    then args ++ ["--disallowedTools"; String.concat "," (Options.DisallowedTools options)]
    else args in
  args.

Definition addSessionArgs (args : list string) (options : Options.t) : list string :=
  let args :=
    match Options.Resume options with
    | Some r => if decide (r <> "") then args ++ ["--resume"; r] else args
    | None => args
    end in
  let args :=
    match Options.Continue options with
    | Some true => args ++ ["--continue"]
    | _ => args
    end in
  args.

Definition addOutputArgs (args : list string) (options : Options.t) : list string :=
  let outputFormat :=
    match Options.OutputFormat options with
    | Some f => f
    | None => OutputFormatStreamJSON
    end in
  let args := args ++ ["--output-format"; outputFormat] in
  match Options.Verbose options with
  | Some true => args ++ ["--verbose"]
  | _ =>
      if decide (outputFormat = OutputFormatStreamJSON)
      then args ++ ["--verbose"]
      else args
  end.

Definition addMCPArgs (args : list string) (options : Options.t) : list string :=
  let args :=
    match Options.MCPConfig options with
    | Some c => if decide (c <> "") then args ++ ["--mcp-config"; c] else args
    | None => args
    end in
  let args :=
    if bool_decide (0 < size (Options.MCPServers options))%nat
    then match json_Marshal_mcpConfig (Options.MCPServers options) with
         | Ok configJSON => args ++ ["--mcp-config"; configJSON]
         | Err _ => args
         end
    else args in
  args.

Definition addPermissionArgs (args : list string) (options : Options.t) : list string :=
  let args :=
    match Options.PermissionMode options with
    | Some m => if decide (m <> "") then args ++ ["--permission-mode"; m] else args
    | None => args
    end in
  let args :=
    match Options.PermissionPromptTool options with
    | Some t => if decide (t <> "") then args ++ ["--permission-prompt-tool"; t] else args
    | None => args
    end in
  let args :=
    match Options.DangerouslySkipPermissions options with
    | Some true => args ++ ["--dangerously-skip-permissions"]
    | _ => args
    end in
  args.

Definition addMiscArgs (args : list string) (options : Options.t) : list string :=
  let args :=
    match Options.Debug options with
    | Some true => args ++ ["--debug"]
    | _ => args
    end in
  let args :=
    match Options.InputFormat options with
    | Some f => if decide (f <> "") then args ++ ["--input-format"; f] else args
    | None => args
    end in
  let args :=
    fold_left (fun args dir => args ++ ["--add-dir"; dir]) (Options.AddDir options) args in
  args.

Definition buildCommandArgs (options : Options.t) : list string :=
  let args := ["--print"] in
  let args := addPromptArgs args options in
  let args := addModelAndToolArgs args options in
  let args := addSessionArgs args options in
  let args := addOutputArgs args options in
  let args := addMCPArgs args options in
  let args := addPermissionArgs args options in
  let args := addMiscArgs args options in
  args.

(** The format [readOutput] and [addOutputArgs] both settle on. *)
Definition effectiveOutputFormat (options : Options.t) : OutputFormat :=
  match Options.OutputFormat options with
  | Some f => f
  | None => OutputFormatStreamJSON
  end.

End Arguments.

(** ** The child process, as the parent observes it

    A run of a query is determined by what the operating system and the
    child answer to each call the code makes; [World.t] lists these answers.
    The code reads them in program order and nothing else. *)

(** What a pipe's read end delivers: the bytes up to end of file, or up to
    a read failure. *)
Module Output.
Record t : Type := Build { data : string; fault : option error }.
End Output.

Module World.
Record t : Type := Build {
  (** [os.Stat(path)] succeeds *)
  Stat : string -> bool;
  (** the outcome of the search in [findCLIExecutable]: [exec.LookPath] on
      the candidates, then the npm global root *)
  search : option string;
  (** [cmd.StdinPipe()], [cmd.StdoutPipe()], [cmd.StderrPipe()] *)
  StdinPipe : option error;
  StdoutPipe : option error;
  StderrPipe : option error;
  (** [cmd.Start()] *)
  Start : option error;
  (** [stdin.Write([]byte(prompt))] *)
  Write : string -> option error;
  (** what the child writes to its standard output and standard error *)
  stdout : Output.t;
  stderr : Output.t;
  (** [cmd.Wait()]: nil, an [*exec.ExitError], or another error *)
  Wait : option error;
  (** the successive readings of [time.Now()] *)
  clock : nat -> Time;
  (** the [select] in [streamMessages] when [n] messages have been sent:
      [None] when the send goes through, [Some (ctx.Err())] when the
      context is done first *)
  ctxDone : nat -> option error }.
End World.

(** The parent's end of a pipe made by [StdoutPipe] or [StderrPipe]. The
    documentation of os/exec: "Wait will close the pipe after seeing the
    command exit [...]. It is thus incorrect to call Wait before all reads
    from the pipe have completed." A read from a closed [*os.File] fails
    with [os.ErrClosed]. *)
Module Pipe.
Record t : Type := Build { source : Output.t; closed : bool }.

Definition open (o : Output.t) : t := Build o false.
Definition close (p : t) : t := Build (source p) true.
End Pipe.

Definition os_ErrClosed : error := ErrorString "file already closed".
Definition bufio_ErrTooLong : error := ErrorString "bufio.Scanner: token too long".

(** [io.ReadAll(r)]: the bytes read and the error, nil at end of file. *)
Definition io_ReadAll (r : Pipe.t) : string * option error :=
  if Pipe.closed r then ("", Some os_ErrClosed)
  else (Output.data (Pipe.source r), Output.fault (Pipe.source r)).

(** [bufio.MaxScanTokenSize] *)
Definition MaxScanTokenSize : N := 65536%N.

Definition LF : ascii := Ascii.ascii_of_nat 10.
Definition CR : ascii := Ascii.ascii_of_nat 13.

(** [dropCR] of bufio: one trailing carriage return is dropped. *)
Fixpoint dropCR (s : string) : string :=
  match s with
  | EmptyString => EmptyString
  | String c EmptyString => if decide (c = CR) then EmptyString else s
  | String c rest => String c (dropCR rest)
  end.

(** A [bufio.Scanner] with the default split function [ScanLines] run to
    its end over [data]: the tokens [scanner.Text()] takes in turn and the
    final [scanner.Err()]. [line] is the part of the current line read so
    far; a line that fills the buffer without a line feed stops the scan
    with [ErrTooLong]; [fault] is the read error met after [data]. *)
Fixpoint scanLines (data line : string) (fault : option error)
  : list string * option error :=
  match data with
  | EmptyString =>
      (if decide (line = "") then [] else [dropCR line], fault)
  | String c rest =>
      if decide (c = LF) then
        let '(tokens, err) := scanLines rest "" fault in
        (dropCR line :: tokens, err)
      else
        let line' := line +:+ String c EmptyString in
        if (MaxScanTokenSize <=? N.of_nat (String.length line'))%N
        then ([], Some bufio_ErrTooLong)
        else scanLines rest line' fault
  end.

Definition bufio_Scan (r : Pipe.t) : list string * option error :=
  if Pipe.closed r then ([], Some os_ErrClosed)
  else scanLines (Output.data (Pipe.source r)) "" (Output.fault (Pipe.source r)).

Module Cmd.
Record t : Type := Build { Path : string; Args : list string; Dir : string }.
End Cmd.

(** ** The drivers (claude.go, [Query] and [QueryStream])

    [os.Setenv("CLAUDE_CODE_ENTRYPOINT", "sdk-go")] changes the parent's
    environment and none of the results below; it is left out. The
    deferred [stdin.Close()] likewise. *)

Section Drivers.
Context `{GoRuntime}.
Variable w : World.t.

Definition findCLIExecutable (customPath : option string) : result string :=
  let search :=
    match World.search w with
    | Some path => Ok path
    | None => Err (CLINotFoundError "")
    end in
  match customPath with
  | Some p =>
      if decide (p <> "") then
        if World.Stat w p then Ok p else Err (CLINotFoundError p)
      else search
  | None => search
  end.

Definition setupCommand (options : Options.t) : result Cmd.t :=
  cliPath <- findCLIExecutable (Options.Executable options) ;;;
  let args := buildCommandArgs options in
  let cmd := Cmd.Build cliPath (cliPath :: args) "" in
  match Options.Cwd options with
  | Some dir => Ok (Cmd.Build (Cmd.Path cmd) (Cmd.Args cmd) dir)
  | None => Ok cmd
  end.

Definition createPipes : result (Pipe.t * Pipe.t) :=
  match World.StdinPipe w with
  | Some err => Err (CLIConnectionError "failed to create stdin pipe" (Some err))
  | None =>
      match World.StdoutPipe w with
      | Some err => Err (CLIConnectionError "failed to create stdout pipe" (Some err))
      | None =>
          match World.StderrPipe w with
          | Some err => Err (CLIConnectionError "failed to create stderr pipe" (Some err))
          | None => Ok (Pipe.open (World.stdout w), Pipe.open (World.stderr w))
          end
      end
  end.

(** [cmd.Wait()]: the exit status, and the parent's pipe ends closed. *)
Definition cmd_Wait (stderr : Pipe.t) : option error * Pipe.t :=
  (World.Wait w, Pipe.close stderr).

Definition readTextOutput (now : Time) (reader : Pipe.t) : result (list Message) :=
  match io_ReadAll reader with
  | (_, Some err) =>
      Err (CLIConnectionError "error reading text output" (Some err))
  | (content, None) =>
      let resultText := content in
      let message :=
        Result (ResultMessage.Build "text_output" 0 0 false 0
                  "text_output_session" None None (Some resultText) now) in
      Ok [message]
  end.

(** The [for scanner.Scan()] loop of [readMessages] over the tokens still
    to come; [tick] counts the readings of the clock so far. *)
Fixpoint readMessages_scan (tick : nat) (lines : list string) (messages : list Message)
  : result (list Message) :=
  match lines with
  | [] => Ok messages
  | line :: rest =>
      if decide (line = "") then readMessages_scan tick rest messages
      else
        match json_Unmarshal line with
        | Err err => Err (CLIJSONDecodeError line (Some err))
        | Ok rawMessage =>
            message <- parseMessage (World.clock w tick) rawMessage ;;;
            readMessages_scan (S tick) rest (messages ++ [message])
        end
  end.

Definition readMessages (reader : Pipe.t) : result (list Message) :=
  let '(lines, scanErr) := bufio_Scan reader in
  messages <- readMessages_scan 0 lines [] ;;;
  match scanErr with
  | Some err => Err (CLIConnectionError "error reading CLI output" (Some err))
  | None => Ok messages
  end.

Definition readOutput (stdout : Pipe.t) (options : Options.t) : result (list Message) :=
  let outputFormat :=
    match Options.OutputFormat options with
    | Some f => f
    | None => OutputFormatStreamJSON
    end in
  if decide (outputFormat = OutputFormatText)
  then readTextOutput (World.clock w 0) stdout
  else readMessages stdout.

Definition handleReadError (_ : error) (stderr : Pipe.t) : error :=
  let '(stderrBytes, readErr) := io_ReadAll stderr in
  let stderrBytes :=
    match readErr with
    | Some _ => "failed to read stderr"
    | None => stderrBytes
    end in
  ProcessError (-1) stderrBytes "".

Definition waitForCommand (stderr : Pipe.t) : option error :=
  let '(waitErr, stderr) := cmd_Wait stderr in
  match waitErr with
  | Some err =>
      let '(stderrBytes, readErr) := io_ReadAll stderr in
      let stderrBytes :=
        match readErr with
        | Some _ => "failed to read stderr"
        | None => stderrBytes
        end in
      match err with
      | ExitError code => Some (ProcessError code stderrBytes "")
      | _ => Some (CLIConnectionError "CLI process failed" (Some err))
      end
  | None => None
  end.

(** [Query]: the messages and the error it returns; [nil] messages are
    the empty list. *)
Definition Query (prompt : string) (options : option Options.t)
  : list Message * option error :=
  let options := default Options.zero options in
  match setupCommand options with
  | Err err => ([], Some err)
  | Ok cmd =>
      match createPipes with
      | Err err => ([], Some err)
      | Ok (stdout, stderr) =>
          match World.Start w with
          | Some err =>
              ([], Some (CLIConnectionError "failed to start Claude CLI" (Some err)))
          | None =>
              match World.Write w prompt with
              | Some writeErr =>
                  (* Cause: err, which is nil here *)
                  ([], Some (CLIConnectionError "failed to write prompt to stdin" None))
              | None =>
                  match readOutput stdout options with
                  | Err err => ([], Some (handleReadError err stderr))
                  | Ok messages => (messages, waitForCommand stderr)
                  end
              end
          end
      end
  end.

Definition prepareStreamOptions (options : Options.t) : Options.t :=
  let streamFormat := OutputFormatStreamJSON in
  Options.Build
    (Options.Model options) (Options.SystemPrompt options)
    (Options.AppendSystemPrompt options) (Options.MaxTurns options)
    (Options.Continue options) (Options.Resume options)
    (Options.AllowedTools options) (Options.DisallowedTools options)
    (Options.MCPTools options) (Options.MCPServers options)
    (Options.MCPConfig options) (Options.PermissionMode options)
    (Options.PermissionPromptTool options)
    (Options.DangerouslySkipPermissions options) (Options.Cwd options)
    (Options.AddDir options) (Options.InputFormat options)
    (Some streamFormat)
    (Options.Debug options) (Options.Verbose options)
    (Options.AbortController options) (Options.Executable options).

Definition setupStreamCommand (options : Options.t) : result Cmd.t :=
  cliPath <- findCLIExecutable (Options.Executable options) ;;;
  let args := buildCommandArgs options in
  let cmd := Cmd.Build cliPath (cliPath :: args) "" in
  match Options.Cwd options with
  | Some dir => Ok (Cmd.Build (Cmd.Path cmd) (Cmd.Args cmd) dir)
  | None => Ok cmd
  end.

(** [createStreamPipes]: the pipes, or the error put on [errorChan]. *)
Definition createStreamPipes : result (Pipe.t * Pipe.t) :=
  match World.StdinPipe w with
  | Some err => Err (CLIConnectionError "failed to create stdin pipe" (Some err))
  | None =>
      match World.StdoutPipe w with
      | Some err => Err (CLIConnectionError "failed to create stdout pipe" (Some err))
      | None =>
          match World.StderrPipe w with
          | Some err => Err (CLIConnectionError "failed to create stderr pipe" (Some err))
          | None => Ok (Pipe.open (World.stdout w), Pipe.open (World.stderr w))
          end
      end
  end.

(** [sendPrompt]: [_, _ = stdin.Write([]byte(prompt))]; both results of
    the write are dropped and the function returns nothing. *)
Definition sendPrompt (prompt : string) : unit :=
  let _ := World.Write w prompt in tt.

(** The [for scanner.Scan()] loop of [streamMessages]: the messages sent
    on [messageChan] so far, and on leaving the loop early the error sent
    on [errorChan]. *)
Fixpoint streamMessages_scan (tick : nat) (lines : list string) (sent : list Message)
  : list Message * option error :=
  match lines with
  | [] => (sent, None)
  | line :: rest =>
      if decide (line = "") then streamMessages_scan tick rest sent
      else
        match json_Unmarshal line with
        | Err err => (sent, Some (CLIJSONDecodeError line (Some err)))
        | Ok rawMessage =>
            match parseMessage (World.clock w tick) rawMessage with
            | Err err => (sent, Some err)
            | Ok message =>
                match World.ctxDone w (length sent) with
                | Some ctxErr => (sent, Some ctxErr)
                | None => streamMessages_scan (S tick) rest (sent ++ [message])
                end
            end
        end
  end.

(** [streamMessages]: what went to [messageChan], what went to
    [errorChan], and the boolean it returns. *)
Definition streamMessages (stdout : Pipe.t) : list Message * option error * bool :=
  let '(lines, scanErr) := bufio_Scan stdout in
  match streamMessages_scan 0 lines [] with
  | (sent, Some err) => (sent, Some err, false)
  | (sent, None) =>
      match scanErr with
      | Some err =>
          (sent, Some (CLIConnectionError "error reading CLI output" (Some err)), false)
      | None => (sent, None, true)
      end
  end.

(** [waitForStreamCommand]: the error it puts on [errorChan], if any. *)
Definition waitForStreamCommand (stderr : Pipe.t) : option error :=
  let '(waitErr, stderr) := cmd_Wait stderr in
  match waitErr with
  | Some err =>
      let '(stderrBytes, readErr) := io_ReadAll stderr in
      let stderrBytes :=
        match readErr with
        | Some _ => "failed to read stderr"
        | None => stderrBytes
        end in
      match err with
      | ExitError code => Some (ProcessError code stderrBytes "")
      | _ => Some (CLIConnectionError "CLI process failed" (Some err))
      end
  | None => None
  end.

(** [QueryStream]: everything received from [messageChan] until it is
    closed, and the error received from [errorChan], if one was sent. *)
Definition QueryStream (prompt : string) (options : option Options.t)
  : list Message * option error :=
  let options := default Options.zero options in
  let streamOptions := prepareStreamOptions options in
  match setupStreamCommand streamOptions with
  | Err err => ([], Some err)
  | Ok cmd =>
      match createStreamPipes with
      | Err err => ([], Some err)
      | Ok (stdout, stderr) =>
          match World.Start w with
          | Some err =>
              ([], Some (CLIConnectionError "failed to start Claude CLI" (Some err)))
          | None =>
              let _ := sendPrompt prompt in
              match streamMessages stdout with
              | (sent, errorChan, false) => (sent, errorChan)
              | (sent, _, true) => (sent, waitForStreamCommand stderr)
              end
          end
      end
  end.

End Drivers.

(** ** Worked inputs

    A runtime and a few runs to evaluate the code on. The runtime knows
    the lines below and rejects every other text; it stands for
    [encoding/json], [fmt] and [time] on exactly these inputs. *)

Definition DQ : string := String (Ascii.ascii_of_nat 34) EmptyString.
Definition quoted (s : string) : string := DQ +:+ s +:+ DQ.
Definition field (k v : string) : string := quoted k +:+ ":" +:+ v.
Definition object (fields : list string) : string :=
  "{" +:+ String.concat "," fields +:+ "}".
Definition array (elements : list string) : string :=
  "[" +:+ String.concat "," elements +:+ "]".

(** [{"type":"assistant","session_id":"s1","message":{"content":"hi"}}] *)
Definition assistant_line : string :=
  object [field "type" (quoted "assistant"); field "session_id" (quoted "s1");
          field "message" (object [field "content" (quoted "hi")])].
Definition assistant_raw : gmap string value :=
  {[ "type" := VString "assistant"; "session_id" := VString "s1";
     "message" := VMap {[ "content" := VString "hi" ]} ]}.

(** [{"type":"result","session_id":"s1","is_error":false,"num_turns":1,"total_cost_usd":0.25}] *)
Definition result_line : string :=
  object [field "type" (quoted "result"); field "session_id" (quoted "s1");
          field "is_error" "false"; field "num_turns" "1";
          field "total_cost_usd" "0.25"].
Definition result_raw : gmap string value :=
  {[ "type" := VString "result"; "session_id" := VString "s1";
     "is_error" := VBool false; "num_turns" := VFloat64 1%float;
     "total_cost_usd" := VFloat64 0.25%float ]}.

(** [{"type":"system","subtype":"init"}], without a timestamp *)
Definition system_line : string :=
  object [field "type" (quoted "system"); field "subtype" (quoted "init")].
Definition system_raw : gmap string value :=
  {[ "type" := VString "system"; "subtype" := VString "init" ]}.

(** [{"type":"system","timestamp":"2024-01-01T00:00:00Z"}] *)
Definition dated_line : string :=
  object [field "type" (quoted "system");
          field "timestamp" (quoted "2024-01-01T00:00:00Z")].
Definition dated_raw : gmap string value :=
  {[ "type" := VString "system"; "timestamp" := VString "2024-01-01T00:00:00Z" ]}.

(** [{"type":"telemetry","session_id":"s1"}] *)
Definition telemetry_line : string :=
  object [field "type" (quoted "telemetry"); field "session_id" (quoted "s1")].
Definition telemetry_raw : gmap string value :=
  {[ "type" := VString "telemetry"; "session_id" := VString "s1" ]}.

(** [{"type":"assistant","message":{"content":["ok",{"type":"bogus"}]}}] *)
Definition bogus_line : string :=
  object [field "type" (quoted "assistant");
          field "message"
            (object [field "content"
                       (array [quoted "ok"; object [field "type" (quoted "bogus")]])])].
Definition bogus_content : list value :=
  [VString "ok"; VMap {[ "type" := VString "bogus" ]}].
Definition bogus_message : gmap string value := {[ "content" := VSlice bogus_content ]}.
Definition bogus_raw : gmap string value :=
  {[ "type" := VString "assistant"; "message" := VMap bogus_message ]}.

(** [{"type":"user","message":{"content":[{"type":"text","text":"a"},
     {"type":"tool_result","tool_use_id":"t1","content":"done"},"b"]}}] *)
Definition blocks_line : string :=
  object [field "type" (quoted "user");
          field "message"
            (object [field "content"
                       (array [object [field "type" (quoted "text"); field "text" (quoted "a")];
                               object [field "type" (quoted "tool_result");
                                       field "tool_use_id" (quoted "t1");
                                       field "content" (quoted "done")];
                               quoted "b"])])].
Definition blocks_content : list value :=
  [VMap {[ "type" := VString "text"; "text" := VString "a" ]};
   VMap {[ "type" := VString "tool_result"; "tool_use_id" := VString "t1";
           "content" := VString "done" ]};
   VString "b"].
Definition blocks_message : gmap string value := {[ "content" := VSlice blocks_content ]}.
Definition blocks_raw : gmap string value :=
  {[ "type" := VString "user"; "message" := VMap blocks_message ]}.

Definition sample_lines : list (string * gmap string value) :=
  [(assistant_line, assistant_raw); (result_line, result_raw);
   (system_line, system_raw); (dated_line, dated_raw);
   (telemetry_line, telemetry_raw); (bogus_line, bogus_raw);
   (blocks_line, blocks_raw)].

Fixpoint sample_Unmarshal_in (table : list (string * gmap string value)) (line : string)
  : result (gmap string value) :=
  match table with
  | [] => Err (ErrorString "invalid character looking for beginning of value")
  | (text, raw) :: rest =>
      if decide (line = text) then Ok raw else sample_Unmarshal_in rest line
  end.

(** [%v] on a [float64]: whole numbers below 1e21 in decimal, zeros,
    infinities and NaN as fmt prints them; any other number by a
    placeholder. *)
Definition sample_Sprintf_float (f : float) : string :=
  match Prim2SF f with
  | S754_zero false => "0"
  | S754_zero true => "-0"
  | S754_infinity false => "+Inf"
  | S754_infinity true => "-Inf"
  | S754_nan => "NaN"
  | S754_finite s m e =>
      let whole := if (0 <=? e)%Z then true else (Z.pos m mod 2 ^ (- e) =? 0) in
      let magnitude :=
        if (0 <=? e)%Z then Z.pos m * 2 ^ e else Z.pos m / 2 ^ (- e) in
      if whole && (magnitude <? 10 ^ 21)
      then (if s then "-" else "") +:+ pretty magnitude
      else "<float64>"
  end.

Definition key_le (a b : string * string) : Prop := String.leb a.1 b.1 = true.

#[local] Instance key_le_dec : RelDecision key_le.
Proof. intros a b. unfold key_le. apply _. Defined.

(** [%v]: strings as they are, [<nil>], booleans, slices as [[a b]] and
    maps as [map[k:v ...]] with the keys in order. *)
Fixpoint sample_Sprintf_v (v : value) : string :=
  match v with
  | VNil => "<nil>"
  | VBool true => "true"
  | VBool false => "false"
  | VString s => s
  | VFloat64 f => sample_Sprintf_float f
  | VSlice l => "[" +:+ String.concat " " (map sample_Sprintf_v l) +:+ "]"
  | VMap m =>
      "map[" +:+
      String.concat " "
        (map (fun kv : string * string => kv.1 +:+ ":" +:+ kv.2)
             (merge_sort key_le (map_to_list (sample_Sprintf_v <$> m)))) +:+ "]"
  end.

Definition sample_Parse_RFC3339 (ts : string) : result Time :=
  if decide (ts = "2024-01-01T00:00:00Z") then Ok 1704067200
  else Err (ErrorString "parsing time: cannot parse").

(** Truncation toward zero of a finite [float64]. *)
Definition truncate_float64 (f : float) : Z :=
  match Prim2SF f with
  | S754_finite s m e =>
      let magnitude :=
        if (0 <=? e)%Z then Z.pos m * 2 ^ e else Z.pos m / 2 ^ (- e) in
      if s then - magnitude else magnitude
  | _ => 0
  end.

Definition sample_runtime : GoRuntime :=
  {| json_Unmarshal := sample_Unmarshal_in sample_lines;
     json_Marshal_mcpConfig := fun _ => Err (ErrorString "json: unsupported value");
     fmt_Sprintf_v := sample_Sprintf_v;
     time_Parse_RFC3339 := sample_Parse_RFC3339;
     int_of_float64 := truncate_float64 |}.

(** A run: the child found at [/usr/local/bin/claude] starts, takes the
    prompt unless [write] says otherwise, prints [out] and [err] and ends
    as [wait] says; the clock reads 100, 101, ... and the context is
    never done. *)
Definition run (write : option error) (out err : string) (wait : option error)
  : World.t :=
  World.Build (fun _ => true) (Some "/usr/local/bin/claude")
    None None None None (fun _ => write)
    (Output.Build out None) (Output.Build err None) wait
    (fun n => 100 + Z.of_nat n) (fun _ => None).

Definition EOL : string := String LF EmptyString.

Definition text_options : Options.t :=
  Options.Build None None None None None None [] [] [] ∅ None None None None None []
    None (Some OutputFormatText) None None VNil None.

(** Verbose: false with stream-json asked for. *)
Definition silent_options : Options.t :=
  Options.Build None None None None None None [] [] [] ∅ None None None None None []
    None (Some OutputFormatStreamJSON) None (Some false) VNil None.

Definition map_result {A B : Type} (f : A -> B) (r : result A) : result B :=
  match r with
  | Ok a => Ok (f a)
  | Err e => Err e
  end.

(** ** Predicates of the statements *)

(** A block-type discriminator that [parseContentBlock] knows. *)
Definition known_block_type (discriminator : value) : bool :=
  match discriminator with
  | VString t =>
      bool_decide (t = ContentBlockTypeText)
      || bool_decide (t = ContentBlockTypeToolUse)
      || bool_decide (t = ContentBlockTypeToolResult)
  | _ => false
  end.

(** The object has a string under ["text"]. *)
Definition has_text_field (blockMap : gmap string value) : bool :=
  match assert_string (index blockMap "text") with
  | Some _ => true
  | None => false
  end.

(** An element of a content array that is neither an object nor a string,
    or an object whose discriminator is none of the three known ones. The
    text field stands in for the discriminator only when the object has no
    string [type]: an object whose [type] is a string other than the three
    offends whatever else it holds, and an object without a string [type]
    offends when it has no string text either. *)
Definition offending_element (v : value) : bool :=
  match v with
  | VString _ => false
  | VMap blockMap =>
      match index blockMap "type" with
      | VString t => negb (known_block_type (VString t))
      | _ => negb (has_text_field blockMap)
      end
  | _ => true
  end.

(** The record is an assistant or a user record. *)
Definition carries_content (rawMessage : gmap string value) : Prop :=
  assert_string (index rawMessage "type") = Some MessageTypeAssistant \/
  assert_string (index rawMessage "type") = Some MessageTypeUser.

(** [message.content] of the record is the array [content]. *)
Definition content_array (rawMessage : gmap string value) (content : list value) : Prop :=
  exists msgMap,
    rawMessage !! "message" = Some (VMap msgMap) /\
    msgMap !! "content" = Some (VSlice content).

(** [addOutputArgs] appends [--verbose]. *)
Definition emits_verbose (options : Options.t) : bool :=
  match Options.Verbose options with
  | Some true => true
  | _ => bool_decide (effectiveOutputFormat options = OutputFormatStreamJSON)
  end.

(** The executable is found, the three pipes are made and the child
    starts. *)
Definition launches (w : World.t) (options : Options.t) : Prop :=
  is_Err (findCLIExecutable w (Options.Executable options)) = false /\
  World.StdinPipe w = None /\
  World.StdoutPipe w = None /\
  World.StderrPipe w = None /\
  World.Start w = None.

(** The message [readTextOutput] makes of the output [content]. *)
Definition text_output_message (content : string) (now : Time) : Message :=
  Result (ResultMessage.Build "text_output" 0 0 false 0 "text_output_session"
            None None (Some content) now).

(** The world [w] with another answer to the write of the prompt. *)
Definition with_Write (write : string -> option error) (w : World.t) : World.t :=
  World.Build (World.Stat w) (World.search w) (World.StdinPipe w)
    (World.StdoutPipe w) (World.StderrPipe w) (World.Start w) write
    (World.stdout w) (World.stderr w) (World.Wait w) (World.clock w)
    (World.ctxDone w).

(** ** Predicates and inputs of the further statements *)

(** One of the four discriminators [parseMessage] has an arm for. *)
Definition recognised_type (t : string) : bool :=
  bool_decide (t = MessageTypeSystem) || bool_decide (t = MessageTypeAssistant)
  || bool_decide (t = MessageTypeUser) || bool_decide (t = MessageTypeResult).

(** The array under [key], empty when the key is missing or holds
    something else. *)
Definition array_field (rawMessage : gmap string value) (key : string) : list value :=
  match rawMessage !! key with
  | Some (VSlice l) => l
  | _ => []
  end.

(** An element of [mcp_servers] that is an object, as a server entry. *)
Definition server_entry (v : value) : option MCPServer.t :=
  match v with
  | VMap serverMap =>
      Some (MCPServer.Build
              (default "" (assert_string (index serverMap "name")))
              (default "" (assert_string (index serverMap "status"))))
  | _ => None
  end.

(** The field [key] holds the non-empty string [s]. *)
Definition nonempty_string_field (rawMessage : gmap string value) (key s : string) : Prop :=
  rawMessage !! key = Some (VString s) /\ s <> "".

(** An element of a content array that decodes to a block: a string, or
    an object that is a text block with its text, a tool_use or
    tool_result block, or has no string discriminator but a text. *)
Definition accepted_element (v : value) : bool :=
  match v with
  | VString _ => true
  | VMap blockMap =>
      match index blockMap "type" with
      | VString t =>
          (bool_decide (t = ContentBlockTypeText) && has_text_field blockMap)
          || bool_decide (t = ContentBlockTypeToolUse)
          || bool_decide (t = ContentBlockTypeToolResult)
      | _ => has_text_field blockMap
      end
  | _ => false
  end.

(** The discriminator a content element announces: its ["type"] string,
    and text for a bare string or an object without one. *)
Definition announced_block_type (v : value) : ContentBlockType :=
  match v with
  | VMap blockMap =>
      match index blockMap "type" with
      | VString t => t
      | _ => ContentBlockTypeText
      end
  | _ => ContentBlockTypeText
  end.

(** The lines a read loop decodes: the non-empty ones. *)
Definition nonblank (lines : list string) : list string :=
  filter (fun line => line <> "") lines.

Definition is_NotFoundError (e : error) : bool :=
  match e with CLINotFoundError _ => true | _ => false end.

(** An optional string with the empty string taken for unset, and an
    optional flag with false taken for unset. *)
Definition unset_if_empty (o : option string) : option string :=
  match o with
  | Some s => if decide (s <> "") then Some s else None
  | None => None
  end.

Definition unset_if_false (o : option bool) : option bool :=
  match o with
  | Some true => Some true
  | _ => None
  end.

(** The options with every empty string and every false flag unset, and
    the fields the argument builder never reads cleared. *)
Definition canonical (o : Options.t) : Options.t :=
  Options.Build
    (unset_if_empty (Options.Model o)) (unset_if_empty (Options.SystemPrompt o))
    (unset_if_empty (Options.AppendSystemPrompt o)) (Options.MaxTurns o)
    (unset_if_false (Options.Continue o)) (unset_if_empty (Options.Resume o))
    (Options.AllowedTools o) (Options.DisallowedTools o)
    [] (Options.MCPServers o)
    (unset_if_empty (Options.MCPConfig o)) (unset_if_empty (Options.PermissionMode o))
    (unset_if_empty (Options.PermissionPromptTool o))
    (unset_if_false (Options.DangerouslySkipPermissions o)) None
    (Options.AddDir o) (unset_if_empty (Options.InputFormat o))
    (Options.OutputFormat o)
    (unset_if_false (Options.Debug o)) (unset_if_false (Options.Verbose o))
    VNil None.

(** [--add-dir dir] for each directory, in order. *)
Definition add_dir_args (dirs : list string) : list string :=
  concat (map (fun dir => ["--add-dir"; dir]) dirs).

(** A system record with tools and servers, some of them of the wrong
    type:
    [{"type":"system","subtype":"init","model":"","cwd":"/w",
      "tools":["Read",7,"Write"],
      "mcp_servers":[{"name":"fs","status":"connected"},"x",{"name":3}]}] *)
Definition init_raw : gmap string value :=
  {[ "type" := VString "system"; "subtype" := VString "init";
     "model" := VString ""; "cwd" := VString "/w";
     "tools" := VSlice [VString "Read"; VFloat64 7%float; VString "Write"];
     "mcp_servers" :=
       VSlice [VMap {[ "name" := VString "fs"; "status" := VString "connected" ]};
               VString "x";
               VMap {[ "name" := VFloat64 3%float ]}] ]}.

(** [{"type":"assistant","message":{"content":["ok",{"type":"bogus","text":"x"}]}}]:
    an unknown block type together with a text. *)
Definition bogus_text_content : list value :=
  [VString "ok"; VMap {[ "type" := VString "bogus"; "text" := VString "x" ]}].
Definition bogus_text_message : gmap string value :=
  {[ "content" := VSlice bogus_text_content ]}.
Definition bogus_text_raw : gmap string value :=
  {[ "type" := VString "assistant"; "message" := VMap bogus_text_message ]}.

(** [{"type":"result","result":"done"}] *)
Definition answer_raw : gmap string value :=
  {[ "type" := VString "result"; "result" := VString "done" ]}.

(** A run as [run], with the context done at the select after [n]
    messages were sent. *)
Definition run_cancelled (n : nat) (out err : string) (wait : option error) : World.t :=
  World.Build (fun _ => true) (Some "/usr/local/bin/claude")
    None None None None (fun _ => None)
    (Output.Build out None) (Output.Build err None) wait
    (fun k => 100 + Z.of_nat k)
    (fun k => if decide (k = n) then Some (ErrorString "context canceled") else None).

(** A run in which no file exists and the search finds nothing. *)
Definition run_nothing_installed : World.t :=
  World.Build (fun _ => false) None
    None None None None (fun _ => None)
    (Output.Build "" None) (Output.Build "" None) None
    (fun k => 100 + Z.of_nat k) (fun _ => None).

(** Options naming an executable and two directories, with an empty
    model and a false flag. *)
Definition custom_options : Options.t :=
  Options.Build (Some "") None None (Some 3) (Some false) None ["Read"; "LS"] [] ["mcp"] ∅
    None None None None (Some "/w") ["/a"; "/b"]
    None (Some OutputFormatJSON) None (Some false) VNil (Some "/opt/claude").

(** * Theorems *)

(** ** The decoder *)

Section DecoderFacts.
Context `{GoRuntime}.

Lemma parseContentBlock_Err (rawBlock : value) (e : error) :
  parseContentBlock rawBlock = Err e -> is_JSONDecodeError e = true.
Proof.
  unfold parseContentBlock. intros Hp.
  repeat case_match; simplify_eq; reflexivity.
Qed.

Lemma parseContentBlock_offending (rawBlock : value) :
  offending_element rawBlock = true -> is_Err (parseContentBlock rawBlock) = true.
Proof.
  destruct rawBlock as [| b | f | s | l | blockMap]; simpl; try done.
  unfold parseContentBlock, has_text_field, known_block_type. simpl.
  destruct (index blockMap "type") as [| | | t | |] eqn:Et; simpl;
    try (destruct (assert_string (index blockMap "text")); simpl; done).
  intros Hk. apply negb_true_iff in Hk.
  apply orb_false_iff in Hk as [[Hk1 Hk2]%orb_false_iff Hk3].
  apply bool_decide_eq_false in Hk1, Hk2, Hk3.
  repeat case_decide; done.
Qed.

(** The loop returns the slice it was given, extended by one block per
    element, each the decode of the element at its place. *)
Lemma parseContentBlocks_range_Ok (content : list value) :
  forall blocks bs,
    parseContentBlocks_range content blocks = Ok bs ->
    exists new,
      bs = blocks ++ new /\
      Forall2 (fun v b => parseContentBlock v = Ok b) content new.
Proof.
  induction content as [| rawBlock rest IH]; intros blocks bs Hr; simpl in Hr.
  - injection Hr as <-. exists []. split; [by rewrite app_nil_r | constructor].
  - destruct (parseContentBlock rawBlock) as [block | e] eqn:Hb; simpl in Hr; [| done].
    apply IH in Hr as (new & -> & Hall).
    exists (block :: new). split.
    + by rewrite <- app_assoc.
    + by constructor.
Qed.

Lemma parseContentBlocks_range_Err (content : list value) :
  forall blocks e,
    parseContentBlocks_range content blocks = Err e -> is_JSONDecodeError e = true.
Proof.
  induction content as [| rawBlock rest IH]; intros blocks e Hr; simpl in Hr; [done |].
  destruct (parseContentBlock rawBlock) as [block | e'] eqn:Hb; simpl in Hr.
  - by eapply IH.
  - injection Hr as <-. by eapply parseContentBlock_Err.
Qed.

(** One element that does not decode fails the whole loop. *)
Lemma parseContentBlocks_range_fails (content : list value) :
  forall blocks,
    existsb (fun v => is_Err (parseContentBlock v)) content = true ->
    is_Err (parseContentBlocks_range content blocks) = true.
Proof.
  induction content as [| rawBlock rest IH]; intros blocks Hex; simpl in *; [done |].
  destruct (parseContentBlock rawBlock) as [block | e] eqn:Hb; simpl in *; [| done].
  by apply IH.
Qed.

Lemma parseContentBlocks_Err (rawContent : value) (e : error) :
  parseContentBlocks rawContent = Err e -> is_JSONDecodeError e = true.
Proof.
  destruct rawContent as [| b | f | s | l | m]; simpl; intros Hp; simplify_eq; try done.
  - by eapply parseContentBlocks_range_Err.
  - unfold parseContentBlocks in Hp.
    destruct (parseContentBlock (VMap m)) eqn:Hb; simpl in Hp; simplify_eq.
    by eapply parseContentBlock_Err.
Qed.

Lemma parseMessageContent_Err (rawMessage : gmap string value) (e : error) :
  parseMessageContent rawMessage = Err e -> is_JSONDecodeError e = true.
Proof.
  unfold parseMessageContent. intros Hp.
  repeat case_match; simplify_eq. by eapply parseContentBlocks_Err.
Qed.

Lemma parseMessageContent_array (rawMessage : gmap string value) (content : list value) :
  content_array rawMessage content ->
  parseMessageContent rawMessage = parseContentBlocks_range content [].
Proof.
  intros (msgMap & Hm & Hc). unfold parseMessageContent. by rewrite Hm; simpl; rewrite Hc.
Qed.

(** [parseMessage] on a record whose discriminator is a string, one
    equation per arm of the switch. *)
Lemma parseMessage_typed (now : Time) (rawMessage : gmap string value) (t : string) :
  assert_string (index rawMessage "type") = Some t ->
  parseMessage now rawMessage =
    let timestamp := parseTimestamp now rawMessage in
    let sessionID := (parseCommonFields rawMessage).1 in
    let parentToolUseIDPtr := (parseCommonFields rawMessage).2 in
    if decide (t = "system") then parseSystemMessage rawMessage sessionID timestamp
    else if decide (t = MessageTypeAssistant) then
      parseAssistantMessage rawMessage sessionID parentToolUseIDPtr timestamp
    else if decide (t = MessageTypeUser) then
      parseUserMessage rawMessage sessionID parentToolUseIDPtr timestamp
    else if decide (t = "result") then parseResultMessage rawMessage sessionID timestamp
    else Ok (System (SystemMessage.Build t None None sessionID [] [] None None timestamp)).
Proof.
  intros Ht. unfold parseMessage. rewrite Ht.
  destruct (parseCommonFields rawMessage) as [sessionID parentToolUseIDPtr]. reflexivity.
Qed.

(** On an assistant or user record [parseMessage] fails exactly as the
    content sub-parse does, and succeeds with the blocks it returns. *)
Lemma parseMessage_content (now : Time) (rawMessage : gmap string value) :
  carries_content rawMessage ->
  match parseMessageContent rawMessage with
  | Err e => parseMessage now rawMessage = Err e
  | Ok blocks =>
      exists msg, parseMessage now rawMessage = Ok msg /\ Message_Content msg = blocks
  end.
Proof.
  intros [Ht | Ht]; rewrite (parseMessage_typed _ _ _ Ht); simpl;
    unfold parseAssistantMessage, parseUserMessage;
    destruct (parseMessageContent rawMessage) as [blocks | e]; simpl; eauto.
Qed.

End DecoderFacts.

Section DecoderProperties.
Context `{GoRuntime}.

(** C1 (as amended). For every parsed top-level object, [parseMessage]
    fails exactly when the [type] field is missing or not a string, or
    when [type] is "assistant" or "user" and the content sub-parse of
    [message.content] fails; every failure is a [CLIJSONDecodeError]; and
    when [type] is a string other than system, assistant, user and result,
    [parseMessage] returns a System message whose subtype is that string. *)
Theorem parseMessage_failure_cases (now : Time) (rawMessage : gmap string value) :
  (is_Err (parseMessage now rawMessage) = true <->
     assert_string (index rawMessage "type") = None \/
     (carries_content rawMessage /\ is_Err (parseMessageContent rawMessage) = true))
  /\ (forall e, parseMessage now rawMessage = Err e -> is_JSONDecodeError e = true)
  /\ (forall t,
        assert_string (index rawMessage "type") = Some t ->
        t <> MessageTypeSystem -> t <> MessageTypeAssistant ->
        t <> MessageTypeUser -> t <> MessageTypeResult ->
        parseMessage now rawMessage =
          Ok (System (SystemMessage.Build t None None
                        (parseCommonFields rawMessage).1 [] [] None None
                        (parseTimestamp now rawMessage)))).
Proof.
  destruct (assert_string (index rawMessage "type")) as [t |] eqn:Ht.
  - pose proof (parseMessage_typed now rawMessage t Ht) as Hpm. simpl in Hpm.
    pose proof (parseMessage_content now rawMessage) as Hc.
    unfold carries_content in *. rewrite Ht in Hc |- *.
    split; [| split].
    + split.
      * intros Hfail. right.
        destruct (decide (t = MessageTypeAssistant)) as [-> | Hasst].
        { split; [by left |]. specialize (Hc (or_introl eq_refl)).
          destruct (parseMessageContent rawMessage); [| done].
          destruct Hc as (msg & Hmsg & _). by rewrite Hmsg in Hfail. }
        destruct (decide (t = MessageTypeUser)) as [-> | Husr].
        { split; [by right |]. specialize (Hc (or_intror eq_refl)).
          destruct (parseMessageContent rawMessage); [| done].
          destruct Hc as (msg & Hmsg & _). by rewrite Hmsg in Hfail. }
        rewrite Hpm in Hfail. repeat case_decide; done.
      * intros [Hnone | [Hcc Hfail]]; [done |].
        specialize (Hc Hcc).
        destruct (parseMessageContent rawMessage); [done |]. by rewrite Hc.
    + intros e He. rewrite Hpm in He.
      destruct (decide (t = "system")); [done |].
      destruct (decide (t = MessageTypeAssistant)).
      { unfold parseAssistantMessage in He.
        destruct (parseMessageContent rawMessage) eqn:Hpc; simpl in He; simplify_eq.
        by eapply parseMessageContent_Err. }
      destruct (decide (t = MessageTypeUser)).
      { unfold parseUserMessage in He.
        destruct (parseMessageContent rawMessage) eqn:Hpc; simpl in He; simplify_eq.
        by eapply parseMessageContent_Err. }
      destruct (decide (t = "result")); done.
    + intros t' [= <-] Hsys Hasst Husr Hres. rewrite Hpm.
      unfold MessageTypeSystem, MessageTypeResult in *.
      by rewrite !decide_False by done.
  - split; [| split].
    + split; [by left |]. intros _. unfold parseMessage. by rewrite Ht.
    + intros e. unfold parseMessage. rewrite Ht. by intros [= <-].
    + done.
Qed.

(** C3. An assistant or user record whose [message.content] array holds
    an element that is neither an object nor a string, or an object whose
    block type is none of text, tool_use and tool_result (a string other
    than the three, with or without a text field; or no string [type] and
    no string text to fall back on), does not decode: [parseMessage]
    returns a [CLIJSONDecodeError] and no message, and the read loops stop
    at that line with the error, the batch loop returning no message and
    the streaming loop sending none for the line. *)
Theorem parseMessage_offending_element
    (now : Time) (rawMessage : gmap string value) (content : list value) :
  carries_content rawMessage ->
  content_array rawMessage content ->
  existsb offending_element content = true ->
  exists data cause,
    parseMessage now rawMessage = Err (CLIJSONDecodeError data cause) /\
    forall (w : World.t) (line : string) (rest : list string)
           (tick : nat) (sent : list Message),
      line <> "" ->
      json_Unmarshal line = Ok rawMessage ->
      readMessages_scan w tick (line :: rest) sent =
        Err (CLIJSONDecodeError data cause) /\
      streamMessages_scan w tick (line :: rest) sent =
        (sent, Some (CLIJSONDecodeError data cause)).
Proof.
  intros Hcc Harr Hoff.
  assert (Hfail : is_Err (parseMessageContent rawMessage) = true).
  { rewrite (parseMessageContent_array _ _ Harr).
    apply parseContentBlocks_range_fails.
    apply existsb_exists in Hoff as (v & Hin & Hv).
    apply existsb_exists. exists v. split; [done |].
    by apply parseContentBlock_offending. }
  pose proof (parseMessage_content now rawMessage Hcc) as Hpm.
  destruct (parseMessageContent rawMessage) as [blocks | e] eqn:Hpc; [done |].
  pose proof (parseMessageContent_Err _ _ Hpc) as Hjson.
  destruct e as [| | | | data cause | |]; try done.
  exists data, cause. split; [done |].
  intros w line rest tick sent Hline Hraw. simpl.
  destruct (decide (line = "")) as [Hempty | _]; [done |]. rewrite Hraw.
  assert (Hclock : parseMessage (World.clock w tick) rawMessage =
                   Err (CLIJSONDecodeError data cause)).
  { pose proof (parseMessage_content (World.clock w tick) rawMessage Hcc) as Hpm'.
    by rewrite Hpc in Hpm'. }
  rewrite Hclock. split; reflexivity.
Qed.

(** C6. When an assistant or user record whose [message.content] is an
    array decodes, the message has as many content blocks as the array has
    elements, and the block at each position is the decode of the element
    at that position. *)
Theorem parseMessage_content_array
    (now : Time) (rawMessage : gmap string value) (content : list value)
    (msg : Message) :
  carries_content rawMessage ->
  content_array rawMessage content ->
  parseMessage now rawMessage = Ok msg ->
  length (Message_Content msg) = length content /\
  forall (i : nat) (v : value),
    content !! i = Some v ->
    exists b, Message_Content msg !! i = Some b /\ parseContentBlock v = Ok b.
Proof.
  intros Hcc Harr Hmsg.
  pose proof (parseMessage_content now rawMessage Hcc) as Hpm.
  rewrite (parseMessageContent_array _ _ Harr) in Hpm.
  destruct (parseContentBlocks_range content []) as [blocks | e] eqn:Hr;
    [| by rewrite Hpm in Hmsg].
  destruct Hpm as (msg' & Hmsg' & Hblocks).
  rewrite Hmsg in Hmsg'. injection Hmsg' as <-.
  apply parseContentBlocks_range_Ok in Hr as (new & -> & Hall).
  rewrite Hblocks. simpl. split.
  - symmetry. by eapply Forall2_length.
  - intros i v Hi.
    destruct (Forall2_lookup_l _ _ _ _ _ Hall Hi) as (b & Hb & Hdec). eauto.
Qed.

(** C7. A result record decodes to a Result message whose cost field
    holds the value of [total_cost_usd] when that is a number greater than
    zero, and is nil when it is zero or absent. *)
Theorem parseMessage_total_cost (now : Time) (rawMessage : gmap string value) :
  assert_string (index rawMessage "type") = Some MessageTypeResult ->
  exists m,
    parseMessage now rawMessage = Ok (Result m) /\
    (forall x, rawMessage !! "total_cost_usd" = Some (VFloat64 x) ->
       PrimFloat.ltb 0%float x = true -> ResultMessage.TotalCostUSD m = Some x) /\
    (forall x, rawMessage !! "total_cost_usd" = Some (VFloat64 x) ->
       x = 0%float \/ x = neg_zero -> ResultMessage.TotalCostUSD m = None) /\
    (rawMessage !! "total_cost_usd" = None -> ResultMessage.TotalCostUSD m = None).
Proof.
  intros Ht. rewrite (parseMessage_typed _ _ _ Ht). simpl.
  unfold parseResultMessage. eexists. split; [reflexivity |]. simpl.
  unfold index. split; [| split].
  - intros x -> Hpos. simpl. by rewrite Hpos.
  - intros x -> [-> | ->]; reflexivity.
  - intros ->. reflexivity.
Qed.

(** C8 (as amended). Two runs of the decoder on the same record, at
    clock readings [now1] and [now2], agree on the outcome and on every
    field other than the timestamp; they agree on the timestamp too when
    the record carries a [timestamp] string that parses as RFC 3339;
    otherwise the timestamp of each run is its own clock reading. *)
Theorem parseMessage_deterministic_but_clock
    (now1 now2 : Time) (rawMessage : gmap string value) :
  map_result (with_CreatedAt 0) (parseMessage now1 rawMessage) =
    map_result (with_CreatedAt 0) (parseMessage now2 rawMessage)
  /\ (forall ts parsed,
        assert_string (index rawMessage "timestamp") = Some ts ->
        time_Parse_RFC3339 ts = Ok parsed ->
        parseMessage now1 rawMessage = parseMessage now2 rawMessage /\
        forall msg, parseMessage now1 rawMessage = Ok msg ->
                    Message_Timestamp msg = parsed)
  /\ (assert_string (index rawMessage "timestamp") = None \/
      (exists ts e, assert_string (index rawMessage "timestamp") = Some ts /\
                    time_Parse_RFC3339 ts = Err e) ->
      forall msg, parseMessage now1 rawMessage = Ok msg ->
                  Message_Timestamp msg = now1).
Proof.
  assert (Hts : forall now msg, parseMessage now rawMessage = Ok msg ->
                  Message_Timestamp msg = parseTimestamp now rawMessage).
  { intros now msg. unfold parseMessage.
    destruct (assert_string (index rawMessage "type")) as [t |]; [| done].
    destruct (parseCommonFields rawMessage) as [sessionID parentToolUseIDPtr].
    unfold parseSystemMessage, parseAssistantMessage, parseUserMessage,
      parseResultMessage.
    repeat case_decide; destruct (parseMessageContent rawMessage); simpl;
      intros [= <-]; reflexivity. }
  split; [| split].
  - unfold parseMessage.
    destruct (assert_string (index rawMessage "type")) as [t |]; [| done].
    destruct (parseCommonFields rawMessage) as [sessionID parentToolUseIDPtr].
    unfold parseSystemMessage, parseAssistantMessage, parseUserMessage,
      parseResultMessage.
    repeat case_decide; destruct (parseMessageContent rawMessage); reflexivity.
  - intros ts parsed Hs Hp.
    assert (Heq : forall now, parseTimestamp now rawMessage = parsed).
    { intros now. unfold parseTimestamp. by rewrite Hs, Hp. }
    split.
    + unfold parseMessage. by rewrite !Heq.
    + intros msg Hmsg. by rewrite (Hts _ _ Hmsg).
  - intros Hno msg Hmsg. rewrite (Hts _ _ Hmsg). unfold parseTimestamp.
    destruct Hno as [-> | (ts & e & -> & ->)]; reflexivity.
Qed.

End DecoderProperties.

(** ** The decoder on the worked inputs *)

(** C1, the claim as first stated: a record whose [type] is a string on
    which [parseMessage] nevertheless fails with a [CLIJSONDecodeError]. *)
Lemma parseMessage_fails_with_string_type :
  assert_string (index bogus_raw "type") = Some "assistant" /\
  @parseMessage sample_runtime 100 bogus_raw =
    Err (CLIJSONDecodeError "map[type:bogus]"
           (Some (ErrorString "unknown content block type: bogus"))).
Proof. split; vm_compute; reflexivity. Qed.

(** The fallback of C1 on the telemetry record. *)
Example parseMessage_telemetry :
  @parseMessage sample_runtime 100 telemetry_raw =
    Ok (System (SystemMessage.Build "telemetry" None None "s1" [] [] None None 100)).
Proof. vm_compute. reflexivity. Qed.

(** C3 on the record whose bogus block also holds a text. *)
Lemma parseMessage_offending_element_bogus :
  exists data cause,
    @parseMessage sample_runtime 100 bogus_text_raw = Err (CLIJSONDecodeError data cause) /\
    forall (w : World.t) (line : string) (rest : list string)
           (tick : nat) (sent : list Message),
      line <> "" ->
      @json_Unmarshal sample_runtime line = Ok bogus_text_raw ->
      @readMessages_scan sample_runtime w tick (line :: rest) sent =
        Err (CLIJSONDecodeError data cause) /\
      @streamMessages_scan sample_runtime w tick (line :: rest) sent =
        (sent, Some (CLIJSONDecodeError data cause)).
Proof.
  apply (@parseMessage_offending_element sample_runtime 100 bogus_text_raw
           bogus_text_content).
  - left. vm_compute. reflexivity.
  - exists bogus_text_message. split; vm_compute; reflexivity.
  - vm_compute. reflexivity.
Defined.

(** The elements C3 speaks of, one of each kind. *)
Example offending_elements :
  map offending_element
    [VFloat64 1%float; VNil;
     VMap {[ "type" := VString "bogus" ]};
     VMap {[ "type" := VString "bogus"; "text" := VString "x" ]};
     VMap {[ "id" := VString "t1" ]};
     VMap {[ "text" := VString "x" ]};
     VMap {[ "type" := VString "tool_use" ]};
     VString "x"] =
  [true; true; true; true; true; false; false; false].
Proof. vm_compute. reflexivity. Qed.

(** C6 on the user record with three elements. *)
Lemma parseMessage_content_array_blocks :
  length (Message_Content
            (User (UserMessage.Build
                     [TextBlock "a"; ToolResultBlock "t1" (VString "done") false;
                      TextBlock "b"] None "" 100))) = length blocks_content /\
  forall (i : nat) (v : value),
    blocks_content !! i = Some v ->
    exists b,
      Message_Content
        (User (UserMessage.Build
                 [TextBlock "a"; ToolResultBlock "t1" (VString "done") false;
                  TextBlock "b"] None "" 100)) !! i = Some b /\
      @parseContentBlock sample_runtime v = Ok b.
Proof.
  apply (@parseMessage_content_array sample_runtime 100 blocks_raw blocks_content).
  - right. vm_compute. reflexivity.
  - exists blocks_message. split; vm_compute; reflexivity.
  - vm_compute. reflexivity.
Defined.

(** C7 on the result record with a cost of 0.25. *)
Lemma parseMessage_total_cost_quarter :
  exists m,
    @parseMessage sample_runtime 100 result_raw = Ok (Result m) /\
    (forall x, result_raw !! "total_cost_usd" = Some (VFloat64 x) ->
       PrimFloat.ltb 0%float x = true -> ResultMessage.TotalCostUSD m = Some x) /\
    (forall x, result_raw !! "total_cost_usd" = Some (VFloat64 x) ->
       x = 0%float \/ x = neg_zero -> ResultMessage.TotalCostUSD m = None) /\
    (result_raw !! "total_cost_usd" = None -> ResultMessage.TotalCostUSD m = None).
Proof.
  apply (@parseMessage_total_cost sample_runtime 100 result_raw).
  vm_compute. reflexivity.
Defined.

Example parseMessage_result_cost :
  @parseMessage sample_runtime 100 result_raw =
    Ok (Result (ResultMessage.Build "" 0 0 false 1 "s1" (Some 0.25%float) None None 100)).
Proof. vm_compute. reflexivity. Qed.

(** C8, the claim as first stated: the same line decoded at two clock
    readings gives two messages with different timestamps. *)
Lemma parseMessage_timestamp_follows_clock :
  @json_Unmarshal sample_runtime system_line = Ok system_raw /\
  @parseMessage sample_runtime 100 system_raw =
    Ok (System (SystemMessage.Build "init" None None "" [] [] None None 100)) /\
  @parseMessage sample_runtime 200 system_raw =
    Ok (System (SystemMessage.Build "init" None None "" [] [] None None 200)).
Proof. repeat split; vm_compute; reflexivity. Qed.

(** With a timestamp in the record the clock does not show. *)
Example parseMessage_dated :
  @parseMessage sample_runtime 100 dated_raw = @parseMessage sample_runtime 200 dated_raw.
Proof. vm_compute. reflexivity. Qed.

(** ** The argument builder *)

Section ArgumentFacts.
Context `{GoRuntime}.

Lemma fold_add_dir_extends (dirs : list string) :
  forall args : list string,
    exists suffix,
      fold_left (fun args dir => args ++ ["--add-dir"; dir]) dirs args = args ++ suffix.
Proof.
  induction dirs as [| dir dirs IH]; intros args; simpl.
  - exists []. by rewrite app_nil_r.
  - destruct (IH (args ++ ["--add-dir"; dir])) as [suffix ->].
    eexists. by rewrite <- app_assoc.
Qed.

Lemma addMCPArgs_extends (args : list string) (options : Options.t) :
  exists suffix, addMCPArgs args options = args ++ suffix.
Proof.
  unfold addMCPArgs.
  repeat case_match; rewrite <- ?app_assoc; eexists; try reflexivity;
    by rewrite app_nil_r.
Qed.

Lemma addPermissionArgs_extends (args : list string) (options : Options.t) :
  exists suffix, addPermissionArgs args options = args ++ suffix.
Proof.
  unfold addPermissionArgs.
  repeat case_match; rewrite <- ?app_assoc; eexists; try reflexivity;
    by rewrite app_nil_r.
Qed.

Lemma addMiscArgs_extends (args : list string) (options : Options.t) :
  exists suffix, addMiscArgs args options = args ++ suffix.
Proof.
  unfold addMiscArgs.
  match goal with
  | |- context [fold_left ?f ?dirs ?a] =>
      destruct (fold_add_dir_extends dirs a) as [suffix ->]
  end.
  repeat case_match; rewrite <- ?app_assoc; eexists; reflexivity.
Qed.

Lemma addOutputArgs_eq (args : list string) (options : Options.t) :
  addOutputArgs args options =
    args ++ ["--output-format"; effectiveOutputFormat options]
         ++ (if emits_verbose options then ["--verbose"] else []).
Proof.
  unfold addOutputArgs, emits_verbose, effectiveOutputFormat.
  destruct (Options.Verbose options) as [[|] |];
    destruct (Options.OutputFormat options) as [f |];
    repeat case_decide; repeat case_bool_decide;
    rewrite <- ?app_assoc; simpl; try done; by rewrite ?app_nil_r.
Qed.

(** What [addOutputArgs] appended is still there in the end. *)
Lemma buildCommandArgs_keeps_output (options : Options.t) (arg : string) :
  (forall args, arg ∈ addOutputArgs args options) ->
  arg ∈ buildCommandArgs options.
Proof.
  intros Hin. unfold buildCommandArgs.
  match goal with
  | |- context [addOutputArgs ?a options] => specialize (Hin a); set (out := addOutputArgs a options) in *
  end.
  destruct (addMCPArgs_extends out options) as [s1 ->].
  destruct (addPermissionArgs_extends (out ++ s1) options) as [s2 ->].
  destruct (addMiscArgs_extends ((out ++ s1) ++ s2) options) as [s3 ->].
  rewrite !elem_of_app. auto.
Qed.

(** C9 (as amended). The assembled argument list contains [--verbose]
    whenever the effective output format is stream-json, whatever
    [Verbose] holds, false included; it contains it as well whenever
    [Verbose] is true; and [addOutputArgs] appends the format and then
    [--verbose] in exactly these two cases. *)
Theorem buildCommandArgs_verbose (options : Options.t) :
  (effectiveOutputFormat options = OutputFormatStreamJSON ->
     "--verbose" ∈ buildCommandArgs options)
  /\ (Options.Verbose options = Some true -> "--verbose" ∈ buildCommandArgs options)
  /\ (forall args,
        addOutputArgs args options =
          args ++ ["--output-format"; effectiveOutputFormat options]
               ++ (if emits_verbose options then ["--verbose"] else [])).
Proof.
  assert (Hemit : emits_verbose options = true -> "--verbose" ∈ buildCommandArgs options).
  { intros He. apply buildCommandArgs_keeps_output. intros args.
    rewrite addOutputArgs_eq, He. rewrite !elem_of_app. right. right.
    apply list_elem_of_singleton. reflexivity. }
  split; [| split].
  - intros Hfmt. apply Hemit. unfold emits_verbose.
    rewrite bool_decide_eq_true_2 by done. by repeat case_match.
  - intros Hv. apply Hemit. unfold emits_verbose. by rewrite Hv.
  - intros args. apply addOutputArgs_eq.
Qed.

End ArgumentFacts.

(** C9, the claim as first stated: [Verbose] is false, the format is
    stream-json, and [--verbose] is in the argument list all the same. *)
Lemma buildCommandArgs_silent :
  Options.Verbose silent_options = Some false /\
  effectiveOutputFormat silent_options = OutputFormatStreamJSON /\
  @buildCommandArgs sample_runtime silent_options =
    ["--print"; "--output-format"; "stream-json"; "--verbose"].
Proof. repeat split; vm_compute; reflexivity. Qed.

(** ** The drivers *)

Section DriverFacts.
Context `{GoRuntime}.
Variable w : World.t.

Lemma findCLIExecutable_Err (customPath : option string) (e : error) :
  findCLIExecutable w customPath = Err e -> exists path, e = CLINotFoundError path.
Proof.
  unfold findCLIExecutable. intros Hf.
  repeat case_match; simplify_eq; eauto.
Qed.

Lemma setupCommand_launches (options : Options.t) :
  launches w options -> exists cmd, setupCommand w options = Ok cmd.
Proof.
  intros (Hfind & _). unfold setupCommand.
  destruct (findCLIExecutable w (Options.Executable options)); [| done].
  simpl. destruct (Options.Cwd options); eauto.
Qed.

Lemma launches_prepareStreamOptions (options : Options.t) :
  launches w options -> launches w (prepareStreamOptions options).
Proof. intros Hl. exact Hl. Qed.

(** Once the child has started and taken the prompt, [Query] is the read
    of the output followed by [handleReadError] or [waitForCommand]. *)
Lemma Query_launched (prompt : string) (options : Options.t) :
  launches w options ->
  World.Write w prompt = None ->
  Query w prompt (Some options) =
    match readOutput w (Pipe.open (World.stdout w)) options with
    | Err err => ([], Some (handleReadError err (Pipe.open (World.stderr w))))
    | Ok messages => (messages, waitForCommand w (Pipe.open (World.stderr w)))
    end.
Proof.
  intros Hl Hw. destruct (setupCommand_launches options Hl) as [cmd Hcmd].
  destruct Hl as (_ & Hin & Hout & Herr & Hstart).
  unfold Query, createPipes. simpl.
  by rewrite Hcmd, Hin, Hout, Herr, Hstart, Hw.
Qed.

(** A failed write of the prompt ends [Query] with a connection error. *)
Lemma Query_write_failure (prompt : string) (options : Options.t) (writeErr : error) :
  launches w options ->
  World.Write w prompt = Some writeErr ->
  Query w prompt (Some options) =
    ([], Some (CLIConnectionError "failed to write prompt to stdin" None)).
Proof.
  intros Hl Hw. destruct (setupCommand_launches options Hl) as [cmd Hcmd].
  destruct Hl as (_ & Hin & Hout & Herr & Hstart).
  unfold Query, createPipes. simpl.
  by rewrite Hcmd, Hin, Hout, Herr, Hstart, Hw.
Qed.

Lemma QueryStream_launched (prompt : string) (options : Options.t) :
  launches w options ->
  QueryStream w prompt (Some options) =
    match streamMessages w (Pipe.open (World.stdout w)) with
    | (sent, errorChan, false) => (sent, errorChan)
    | (sent, _, true) => (sent, waitForStreamCommand w (Pipe.open (World.stderr w)))
    end.
Proof.
  intros Hl. apply launches_prepareStreamOptions in Hl.
  destruct (setupCommand_launches _ Hl) as [cmd Hcmd].
  destruct Hl as (_ & Hin & Hout & Herr & Hstart).
  unfold QueryStream, createStreamPipes, setupStreamCommand in *.
  unfold setupCommand in Hcmd. simpl in *.
  by rewrite Hcmd, Hin, Hout, Herr, Hstart.
Qed.

(** After [cmd.Wait()] the read of standard error fails, so the text of
    a [ProcessError] made then is the placeholder. *)
Lemma waitForCommand_ExitError (stderr : Pipe.t) (code : Z) :
  World.Wait w = Some (ExitError code) ->
  waitForCommand w stderr = Some (ProcessError code "failed to read stderr" "") /\
  waitForStreamCommand w stderr = Some (ProcessError code "failed to read stderr" "").
Proof.
  intros Hwait. unfold waitForCommand, waitForStreamCommand, cmd_Wait.
  rewrite Hwait. split; reflexivity.
Qed.

(** Both read loops stop at a non-empty line that is not JSON, with the
    line as the data of the error. *)
Lemma scan_malformed_line (line : string) (rest : list string) (tick : nat)
    (messages : list Message) (err : error) :
  line <> "" ->
  json_Unmarshal line = Err err ->
  readMessages_scan w tick (line :: rest) messages =
    Err (CLIJSONDecodeError line (Some err)) /\
  streamMessages_scan w tick (line :: rest) messages =
    (messages, Some (CLIJSONDecodeError line (Some err))).
Proof.
  intros Hline Herr. simpl.
  destruct (decide (line = "")) as [Hempty | _]; [done |].
  rewrite Herr. split; reflexivity.
Qed.

(** What the streaming loop has sent when it reaches the end of the
    output is what the batch loop returns: every decoded message, in
    line order. *)
Lemma streamMessages_scan_sent (lines : list string) :
  forall (tick : nat) (sent sent' : list Message),
    streamMessages_scan w tick lines sent = (sent', None) ->
    readMessages_scan w tick lines sent = Ok sent'.
Proof.
  induction lines as [| line rest IH]; intros tick sent sent' Hs; simpl in *.
  - by injection Hs as <-.
  - destruct (decide (line = "")); [by apply IH |].
    destruct (json_Unmarshal line) as [rawMessage | e]; [| done].
    destruct (parseMessage (World.clock w tick) rawMessage) as [message | e];
      simpl; [| done].
    destruct (World.ctxDone w (length sent)); [done |].
    by apply IH.
Qed.

(** And when the context is never done the streaming loop sends all that
    the batch loop returns. *)
Lemma readMessages_scan_sent (lines : list string) :
  (forall n, World.ctxDone w n = None) ->
  forall (tick : nat) (sent messages : list Message),
    readMessages_scan w tick lines sent = Ok messages ->
    streamMessages_scan w tick lines sent = (messages, None).
Proof.
  intros Hctx.
  induction lines as [| line rest IH]; intros tick sent messages Hr; simpl in *.
  - by injection Hr as <-.
  - destruct (decide (line = "")); [by apply IH |].
    destruct (json_Unmarshal line) as [rawMessage | e]; [| done].
    destruct (parseMessage (World.clock w tick) rawMessage) as [message | e];
      simpl in *; [| done].
    rewrite Hctx. by apply IH.
Qed.

(** The loops carry on after a prefix they get through: the streaming
    loop has then made one more reading of the clock per message sent. *)
Lemma streamMessages_scan_length (lines : list string) :
  forall (tick : nat) (sent sent' : list Message) (e : option error),
    streamMessages_scan w tick lines sent = (sent', e) ->
    (length sent <= length sent')%nat.
Proof.
  induction lines as [| line rest IH]; intros tick sent sent' e Hs; simpl in Hs.
  - injection Hs as <- _. lia.
  - destruct (decide (line = "")); [by eapply IH |].
    destruct (json_Unmarshal line) as [rawMessage | e1];
      [| injection Hs as <- _; lia].
    destruct (parseMessage (World.clock w tick) rawMessage) as [message | e2];
      [| injection Hs as <- _; lia].
    destruct (World.ctxDone w (length sent)); [injection Hs as <- _; lia |].
    apply IH in Hs. rewrite length_app in Hs. simpl in Hs. lia.
Qed.

Lemma streamMessages_scan_app (before : list string) :
  forall (after : list string) (tick : nat) (sent sent' : list Message),
    streamMessages_scan w tick before sent = (sent', None) ->
    streamMessages_scan w tick (before ++ after) sent =
      streamMessages_scan w (tick + (length sent' - length sent)) after sent'.
Proof.
  induction before as [| line rest IH]; intros after tick sent sent' Hs; simpl in *.
  - injection Hs as <-. f_equal. lia.
  - destruct (decide (line = "")); [by apply IH |].
    destruct (json_Unmarshal line) as [rawMessage | e1]; [| done].
    destruct (parseMessage (World.clock w tick) rawMessage) as [message | e2]; [| done].
    destruct (World.ctxDone w (length sent)); [done |].
    pose proof (streamMessages_scan_length _ _ _ _ _ Hs) as Hlen.
    rewrite (IH after _ _ _ Hs). f_equal.
    rewrite length_app in *. simpl in *. lia.
Qed.

(** The first line that is not JSON, reached by the streaming loop after
    lines it got through, ends the stream with a [CLIJSONDecodeError]
    whose data is that line; what was sent before stays sent. *)
Lemma streamMessages_scan_first_malformed
    (before after : list string) (line : string) (sent : list Message) (err : error) :
  streamMessages_scan w 0 before [] = (sent, None) ->
  line <> "" ->
  json_Unmarshal line = Err err ->
  streamMessages_scan w 0 (before ++ line :: after) [] =
    (sent, Some (CLIJSONDecodeError line (Some err))).
Proof.
  intros Hbefore Hline Herr.
  rewrite (streamMessages_scan_app _ _ _ _ _ Hbefore).
  by apply scan_malformed_line.
Qed.

(** Whenever the read of the output fails, for whatever reason, [Query]
    reports a [ProcessError] with exit code -1 and nothing of the
    reason. *)
Lemma Query_read_failure (prompt : string) (options : Options.t) (err : error) :
  launches w options ->
  World.Write w prompt = None ->
  readOutput w (Pipe.open (World.stdout w)) options = Err err ->
  exists text, Query w prompt (Some options) = ([], Some (ProcessError (-1) text "")).
Proof.
  intros Hl Hw Hread. rewrite (Query_launched _ _ Hl Hw), Hread.
  unfold handleReadError. destruct (io_ReadAll _) as [bytes readErr]. eauto.
Qed.

(** A child that ends with a non-zero status after its output was read
    to the end: both drivers report a [ProcessError] with the exit code,
    the streaming one having sent every decoded message; the text is
    the placeholder. *)
Lemma Query_exit_status (prompt : string) (options : Options.t)
    (messages : list Message) (code : Z) :
  launches w options ->
  World.Write w prompt = None ->
  readOutput w (Pipe.open (World.stdout w)) options = Ok messages ->
  World.Wait w = Some (ExitError code) ->
  Query w prompt (Some options) =
    (messages, Some (ProcessError code "failed to read stderr" "")).
Proof.
  intros Hl Hw Hread Hwait. rewrite (Query_launched _ _ Hl Hw), Hread.
  by rewrite (proj1 (waitForCommand_ExitError _ _ Hwait)).
Qed.

Lemma QueryStream_exit_status (prompt : string) (options : Options.t)
    (messages : list Message) (code : Z) :
  launches w options ->
  (forall n, World.ctxDone w n = None) ->
  readMessages w (Pipe.open (World.stdout w)) = Ok messages ->
  World.Wait w = Some (ExitError code) ->
  QueryStream w prompt (Some options) =
    (messages, Some (ProcessError code "failed to read stderr" "")).
Proof.
  intros Hl Hctx Hread Hwait. rewrite (QueryStream_launched _ _ Hl).
  unfold readMessages, streamMessages in *.
  destruct (bufio_Scan _) as [lines scanErr].
  destruct (readMessages_scan w 0 lines []) as [decoded | e] eqn:Hscan;
    simpl in Hread; [| done].
  rewrite (readMessages_scan_sent lines Hctx _ _ _ Hscan).
  destruct scanErr; [done |]. injection Hread as ->.
  by rewrite (proj2 (waitForCommand_ExitError _ _ Hwait)).
Qed.

(** No error that [Query] returns is a [CLIJSONDecodeError]: the one
    [readMessages] makes is replaced by [handleReadError]. *)
Lemma Query_no_JSONDecodeError (prompt : string) (options : option Options.t) :
  match (Query w prompt options).2 with
  | Some e => is_JSONDecodeError e = false
  | None => True
  end.
Proof.
  unfold Query.
  destruct (setupCommand w (default Options.zero options)) as [cmd | e] eqn:Hcmd.
  - unfold createPipes, handleReadError, waitForCommand, cmd_Wait.
    repeat case_match; simpl in *; simplify_eq; done.
  - simpl. unfold setupCommand in Hcmd.
    destruct (findCLIExecutable w _) as [path | e'] eqn:Hfind; simpl in Hcmd.
    + by destruct (Options.Cwd _).
    + injection Hcmd as <-. by apply findCLIExecutable_Err in Hfind as [path ->].
Qed.

(** [QueryStream] does not depend on the outcome of the write. *)
Lemma QueryStream_ignores_Write (write : string -> option error)
    (prompt : string) (options : option Options.t) :
  QueryStream (with_Write write w) prompt options = QueryStream w prompt options.
Proof. reflexivity. Qed.

End DriverFacts.

Section DriverProperties.
Context `{GoRuntime}.

(** C10. A batch query with output format text whose output is read to
    its end yields exactly one message: a Result message with subtype
    "text_output", session "text_output_session" and the whole output as
    its result string. The output is never handed to the JSON decoder:
    the messages are the same under every runtime. *)
Theorem Query_text_output (w : World.t) (prompt : string) (options : Options.t) :
  Options.OutputFormat options = Some OutputFormatText ->
  launches w options ->
  World.Write w prompt = None ->
  Output.fault (World.stdout w) = None ->
  readOutput w (Pipe.open (World.stdout w)) options =
    Ok [text_output_message (Output.data (World.stdout w)) (World.clock w 0)]
  /\ (Query w prompt (Some options)).1 =
       [text_output_message (Output.data (World.stdout w)) (World.clock w 0)]
  /\ forall R : GoRuntime,
       (@Query R w prompt (Some options)).1 = (Query w prompt (Some options)).1.
Proof.
  intros Hfmt Hl Hw Hfault.
  assert (Hread : forall R : GoRuntime,
            @readOutput R w (Pipe.open (World.stdout w)) options =
              Ok [text_output_message (Output.data (World.stdout w)) (World.clock w 0)]).
  { intros R. unfold readOutput. rewrite Hfmt.
    rewrite decide_True by reflexivity.
    unfold readTextOutput, io_ReadAll. simpl. by rewrite Hfault. }
  assert (Hquery : forall R : GoRuntime,
            (@Query R w prompt (Some options)).1 =
              [text_output_message (Output.data (World.stdout w)) (World.clock w 0)]).
  { intros R. rewrite (@Query_launched R w prompt options Hl Hw).
    by rewrite Hread. }
  split; [apply Hread | split; [apply Hquery |]].
  intros R. by rewrite !Hquery.
Qed.

End DriverProperties.

(** ** The drivers on the worked runs *)

Lemma run_launches (write : option error) (out err : string) (wait : option error)
    (options : Options.t) :
  Options.Executable options = None ->
  launches (run write out err wait) options.
Proof. intros Hexe. unfold launches, findCLIExecutable. rewrite Hexe. by repeat split. Qed.

(** C10 on a child that prints "plain answer". *)
Lemma Query_text_output_plain_answer :
  @readOutput sample_runtime (run None "plain answer" "" None)
    (Pipe.open (World.stdout (run None "plain answer" "" None))) text_options =
    Ok [text_output_message "plain answer" 100]
  /\ (@Query sample_runtime (run None "plain answer" "" None) "hi" (Some text_options)).1 =
       [text_output_message "plain answer" 100]
  /\ forall R : GoRuntime,
       (@Query R (run None "plain answer" "" None) "hi" (Some text_options)).1 =
       (@Query sample_runtime (run None "plain answer" "" None) "hi" (Some text_options)).1.
Proof.
  apply (@Query_text_output sample_runtime (run None "plain answer" "" None) "hi"
           text_options).
  - reflexivity.
  - apply run_launches. reflexivity.
  - reflexivity.
  - reflexivity.
Defined.

(** The two-line scenario of the specification: an assistant record and
    a result record, the child exiting with status 0. *)
Example Query_two_lines :
  @Query sample_runtime
    (run None (assistant_line +:+ EOL +:+ result_line +:+ EOL) "" None) "hi" None =
  ([Assistant (AssistantMessage.Build [TextBlock "hi"] None "s1" 100);
    Result (ResultMessage.Build "" 0 0 false 1 "s1" (Some 0.25%float) None None 101)],
   None).
Proof. vm_compute. reflexivity. Qed.

(** C2, at the failing input: the child prints one line that is not
    JSON and writes "boom" to its standard error. The streaming query
    reports the [CLIJSONDecodeError] with the line as its data; the batch
    query reports a [ProcessError] with exit code -1 instead, the decode
    error having been dropped by [handleReadError]. *)
Theorem Query_malformed_line :
  @json_Unmarshal sample_runtime "not json" =
    Err (ErrorString "invalid character looking for beginning of value") /\
  @QueryStream sample_runtime (run None ("not json" +:+ EOL) "boom" None) "hi" None =
    ([], Some (CLIJSONDecodeError "not json"
                 (Some (ErrorString "invalid character looking for beginning of value")))) /\
  @Query sample_runtime (run None ("not json" +:+ EOL) "boom" None) "hi" None =
    ([], Some (ProcessError (-1) "boom" "")).
Proof. repeat split; vm_compute; reflexivity. Qed.

(** C4, at the failing input: the write of the prompt fails, the child
    prints nothing and exits with status 0. The batch query reports a
    [CLIConnectionError]; the streaming query closes both channels
    without a message and without an error. *)
Theorem QueryStream_write_failure :
  World.Write (run (Some (ErrorString "write |1: broken pipe")) "" "" None) "hi" =
    Some (ErrorString "write |1: broken pipe") /\
  @Query sample_runtime (run (Some (ErrorString "write |1: broken pipe")) "" "" None)
    "hi" None =
    ([], Some (CLIConnectionError "failed to write prompt to stdin" None)) /\
  @QueryStream sample_runtime (run (Some (ErrorString "write |1: broken pipe")) "" "" None)
    "hi" None =
    ([], None).
Proof. repeat split; vm_compute; reflexivity. Qed.

(** C5, at the failing input: the child prints two records, writes
    "auth failed" to its standard error and exits with status 1. Both
    queries deliver the two messages and report a [ProcessError] with
    exit code 1, whose text is the placeholder and not "auth failed":
    standard error is read after [cmd.Wait()] has closed it. *)
Theorem Query_exit_status_one :
  @Query sample_runtime
    (run None (assistant_line +:+ EOL +:+ result_line +:+ EOL) "auth failed"
       (Some (ExitError 1))) "hi" None =
  ([Assistant (AssistantMessage.Build [TextBlock "hi"] None "s1" 100);
    Result (ResultMessage.Build "" 0 0 false 1 "s1" (Some 0.25%float) None None 101)],
   Some (ProcessError 1 "failed to read stderr" "")) /\
  @QueryStream sample_runtime
    (run None (assistant_line +:+ EOL +:+ result_line +:+ EOL) "auth failed"
       (Some (ExitError 1))) "hi" None =
  ([Assistant (AssistantMessage.Build [TextBlock "hi"] None "s1" 100);
    Result (ResultMessage.Build "" 0 0 false 1 "s1" (Some 0.25%float) None None 101)],
   Some (ProcessError 1 "failed to read stderr" "")).
Proof. split; vm_compute; reflexivity. Qed.

(** ** The scanner and a bare string content on examples *)

Example scanLines_two_lines :
  scanLines ("a" +:+ EOL +:+ "b" +:+ EOL) "" None = (["a"; "b"], None).
Proof. vm_compute. reflexivity. Qed.

Example scanLines_blank_and_carriage_return :
  scanLines ("a" +:+ String CR EOL +:+ EOL +:+ "b") "" None = (["a"; ""; "b"], None).
Proof. vm_compute. reflexivity. Qed.

Example parseContentBlocks_bare_string :
  @parseContentBlocks sample_runtime (VString "simple text") = Ok [TextBlock "simple text"].
Proof. reflexivity. Qed.

Example parseContentBlocks_single_object :
  @parseContentBlocks sample_runtime
    (VMap {[ "type" := VString "text"; "text" := VString "map text content" ]}) =
  Ok [TextBlock "map text content"].
Proof. vm_compute. reflexivity. Qed.

(** * Further properties *)

(** ** The decoder *)

Section DecoderFurther.
Context `{GoRuntime}.

Lemma parseMessage_Err (now : Time) (rawMessage : gmap string value) (e : error) :
  parseMessage now rawMessage = Err e -> is_JSONDecodeError e = true.
Proof.
  unfold parseMessage.
  destruct (assert_string (index rawMessage "type")) as [t |]; [| by intros [= <-]].
  destruct (parseCommonFields rawMessage) as [sessionID parentToolUseIDPtr].
  unfold parseSystemMessage, parseAssistantMessage, parseUserMessage, parseResultMessage.
  repeat case_decide; try done;
    destruct (parseMessageContent rawMessage) eqn:Hc; simpl; intros [= <-];
    by eapply parseMessageContent_Err.
Qed.

(** X1. The variant of a decoded message is the record's discriminator
    when that is one of system, assistant, user and result, and system
    otherwise. *)
Theorem parseMessage_Type (now : Time) (rawMessage : gmap string value)
    (t : string) (msg : Message) :
  assert_string (index rawMessage "type") = Some t ->
  parseMessage now rawMessage = Ok msg ->
  Message_Type msg = if recognised_type t then t else MessageTypeSystem.
Proof.
  intros Ht. rewrite (parseMessage_typed _ _ _ Ht). simpl.
  unfold recognised_type, parseSystemMessage, parseAssistantMessage, parseUserMessage,
    parseResultMessage, MessageTypeSystem, MessageTypeResult.
  repeat case_decide; subst; simpl;
    try (destruct (parseMessageContent rawMessage); simpl);
    intros [= <-]; try done;
    repeat (rewrite bool_decide_eq_false_2 by done); reflexivity.
Qed.

(** X2. Every decoded message carries the record's [session_id] when
    that is a string and the empty string otherwise; the parent tool-use
    id of an assistant or user message is the record's
    [parent_tool_use_id] when that is a non-empty string, and nil
    otherwise. *)
Theorem parseMessage_common_fields (now : Time) (rawMessage : gmap string value)
    (msg : Message) :
  parseMessage now rawMessage = Ok msg ->
  Message_SessionID msg = default "" (assert_string (index rawMessage "session_id"))
  /\ (forall m, msg = Assistant m ->
        AssistantMessage.ParentToolUseID m =
          unset_if_empty (assert_string (index rawMessage "parent_tool_use_id")))
  /\ (forall m, msg = User m ->
        UserMessage.ParentToolUseID m =
          unset_if_empty (assert_string (index rawMessage "parent_tool_use_id"))).
Proof.
  assert (Hparent : (parseCommonFields rawMessage).2 =
            unset_if_empty (assert_string (index rawMessage "parent_tool_use_id"))).
  { unfold parseCommonFields, unset_if_empty. simpl.
    destruct (assert_string (index rawMessage "parent_tool_use_id")) as [s |]; simpl;
      repeat case_decide; done. }
  unfold parseMessage.
  destruct (assert_string (index rawMessage "type")) as [t |]; [| done].
  destruct (parseCommonFields rawMessage) as [sessionID parentToolUseIDPtr] eqn:Hc.
  assert (Hs : sessionID = default "" (assert_string (index rawMessage "session_id"))).
  { unfold parseCommonFields in Hc. by injection Hc as <- _. }
  simpl in Hparent.
  unfold parseSystemMessage, parseAssistantMessage, parseUserMessage, parseResultMessage.
  repeat case_decide; try destruct (parseMessageContent rawMessage); simpl;
    intros [= <-]; (split; [done | split; intros m [= <-]; done]).
Qed.

(** The loop of [parseToolsArray]: the strings among the elements are
    appended in order. *)
Lemma parseToolsArray_fold (toolsArray : list value) :
  forall tools : list string,
    fold_left (fun tools tool =>
                 match assert_string tool with
                 | Some toolStr => tools ++ [toolStr]
                 | None => tools
                 end) toolsArray tools
    = tools ++ omap assert_string toolsArray.
Proof.
  induction toolsArray as [| tool rest IH]; intros tools; simpl.
  - by rewrite app_nil_r.
  - rewrite IH. destruct (assert_string tool); simpl; [| done].
    by rewrite <- app_assoc.
Qed.

Lemma parseMCPServers_fold (mcpArray : list value) :
  forall mcpServers : list MCPServer.t,
    fold_left (fun mcpServers server =>
                 match assert_map server with
                 | Some serverMap =>
                     let name := default "" (assert_string (index serverMap "name")) in
                     let status := default "" (assert_string (index serverMap "status")) in
                     mcpServers ++ [MCPServer.Build name status]
                 | None => mcpServers
                 end) mcpArray mcpServers
    = mcpServers ++ omap server_entry mcpArray.
Proof.
  induction mcpArray as [| server rest IH]; intros mcpServers; simpl.
  - by rewrite app_nil_r.
  - rewrite IH. destruct server; simpl; try done.
    by rewrite <- app_assoc.
Qed.

Lemma parseStringPtr_Some (rawMessage : gmap string value) (key s : string) :
  parseStringPtr rawMessage key = Some s <-> nonempty_string_field rawMessage key s.
Proof.
  unfold parseStringPtr, nonempty_string_field, index.
  destruct (rawMessage !! key) as [[| | | s' | |] |]; simpl;
    try (split; [done | by intros [[=] _]]).
  case_decide; split.
  - by intros [= <-].
  - by intros [[= <-] _].
  - done.
  - intros [[= <-] Hne]. done.
Qed.

(** X3. A system record always decodes, to a System message whose tools
    are the string elements of the [tools] array in array order, elements
    of any other type being skipped, and whose servers are the object
    elements of [mcp_servers] in order, a missing or non-string name or
    status reading as empty; a missing field or one that is not an array
    gives the empty list; and each of the four optional strings is set
    exactly when its field holds a non-empty string. *)
Theorem parseMessage_system (now : Time) (rawMessage : gmap string value) :
  assert_string (index rawMessage "type") = Some MessageTypeSystem ->
  exists m,
    parseMessage now rawMessage = Ok (System m) /\
    SystemMessage.Tools m = omap assert_string (array_field rawMessage "tools") /\
    SystemMessage.MCPServers m = omap server_entry (array_field rawMessage "mcp_servers") /\
    (forall s, SystemMessage.APIKeySource m = Some s <->
               nonempty_string_field rawMessage "apiKeySource" s) /\
    (forall s, SystemMessage.Cwd m = Some s <->
               nonempty_string_field rawMessage "cwd" s) /\
    (forall s, SystemMessage.Model m = Some s <->
               nonempty_string_field rawMessage "model" s) /\
    (forall s, SystemMessage.PermissionMode m = Some s <->
               nonempty_string_field rawMessage "permissionMode" s).
Proof.
  intros Ht. rewrite (parseMessage_typed _ _ _ Ht). simpl.
  unfold parseSystemMessage. eexists. split; [reflexivity |]. simpl.
  split; [| split; [| repeat apply conj; intros s; apply parseStringPtr_Some]].
  - unfold parseToolsArray, array_field.
    destruct (rawMessage !! "tools") as [[| | | | l |] |]; simpl; try done.
    by rewrite parseToolsArray_fold.
  - unfold parseMCPServers, array_field.
    destruct (rawMessage !! "mcp_servers") as [[| | | | l |] |]; simpl; try done.
    by rewrite parseMCPServers_fold.
Qed.

(** The range loop over a concatenation is the loop over the first part
    followed by the loop over the second. *)
Lemma parseContentBlocks_range_app (content1 content2 : list value) :
  forall blocks : list ContentBlock,
    parseContentBlocks_range (content1 ++ content2) blocks =
      (blocks1 <- parseContentBlocks_range content1 blocks ;;;
       parseContentBlocks_range content2 blocks1).
Proof.
  induction content1 as [| rawBlock rest IH]; intros blocks; simpl; [done |].
  destruct (parseContentBlock rawBlock) as [block | e]; simpl; [apply IH | done].
Qed.

Lemma parseContentBlocks_range_acc (content : list value) :
  forall blocks : list ContentBlock,
    parseContentBlocks_range content blocks =
      map_result (app blocks) (parseContentBlocks_range content []).
Proof.
  induction content as [| rawBlock rest IH]; intros blocks; simpl.
  - by rewrite app_nil_r.
  - destruct (parseContentBlock rawBlock) as [block | e]; simpl; [| done].
    rewrite (IH (blocks ++ [block])), (IH [block]).
    destruct (parseContentBlocks_range rest []); simpl; [| done].
    by rewrite <- app_assoc.
Qed.

(** X4. Decoding a content array distributes over concatenation: the
    blocks of [content1 ++ content2] are the blocks of [content1]
    followed by those of [content2], and the first part that fails gives
    the error. A bare string and a bare object decode as the array holding
    just them. *)
Theorem parseContentBlocks_app (content1 content2 : list value) :
  parseContentBlocks (VSlice (content1 ++ content2)) =
    (blocks1 <- parseContentBlocks (VSlice content1) ;;;
     blocks2 <- parseContentBlocks (VSlice content2) ;;;
     Ok (blocks1 ++ blocks2))
  /\ (forall s, parseContentBlocks (VString s) = parseContentBlocks (VSlice [VString s]))
  /\ (forall m, parseContentBlocks (VMap m) = parseContentBlocks (VSlice [VMap m])).
Proof.
  split; [| split; reflexivity].
  unfold parseContentBlocks. rewrite parseContentBlocks_range_app.
  destruct (parseContentBlocks_range content1 []) as [blocks1 | e]; simpl; [| done].
  rewrite parseContentBlocks_range_acc.
  by destruct (parseContentBlocks_range content2 []).
Qed.

(** X5. The variant of a decoded block is the discriminator the element
    announces: its [type] string, and text for a bare string or an object
    without a string [type]. *)
Theorem parseContentBlock_Type (rawBlock : value) (block : ContentBlock) :
  parseContentBlock rawBlock = Ok block ->
  ContentBlock_Type block = announced_block_type rawBlock.
Proof.
  unfold parseContentBlock, announced_block_type.
  destruct rawBlock as [| b | f | s | l | blockMap]; simpl; try done.
  - by intros [= <-].
  - destruct (index blockMap "type") as [| | | t | |]; simpl;
      try (destruct (assert_string (index blockMap "text")); by intros [= <-]).
    repeat case_decide; subst;
      try (destruct (assert_string (index blockMap "text"))); by intros [= <-].
Qed.

Lemma parseContentBlock_accepted (rawBlock : value) :
  is_Err (parseContentBlock rawBlock) = negb (accepted_element rawBlock).
Proof.
  unfold parseContentBlock, accepted_element, has_text_field.
  destruct rawBlock as [| b | f | s | l | blockMap]; simpl; try done.
  destruct (index blockMap "type") as [| | | t | |]; simpl;
    try (by destruct (assert_string (index blockMap "text"))).
  unfold ContentBlockTypeText, ContentBlockTypeToolUse, ContentBlockTypeToolResult.
  repeat case_decide; subst; simpl;
    repeat (rewrite bool_decide_eq_false_2 by done);
    repeat (rewrite bool_decide_eq_true_2 by done); simpl;
    try (by destruct (assert_string (index blockMap "text"))); try done;
    by rewrite ?orb_true_r.
Qed.

Lemma parseContentBlocks_range_accepted (content : list value) :
  forall blocks : list ContentBlock,
    is_Err (parseContentBlocks_range content blocks) = negb (forallb accepted_element content).
Proof.
  induction content as [| rawBlock rest IH]; intros blocks; simpl; [done |].
  pose proof (parseContentBlock_accepted rawBlock) as Ha.
  destruct (parseContentBlock rawBlock) as [block | e]; simpl in *;
    destruct (accepted_element rawBlock); simpl in *; first [done | apply IH].
Qed.

(** X6. An assistant or user record whose [message.content] is an array
    decodes exactly when every element is a string, a text block with a
    string text, a tool_use block, a tool_result block, or an object
    without a string [type] but with a string text. *)
Theorem parseMessage_accepts (now : Time) (rawMessage : gmap string value)
    (content : list value) :
  carries_content rawMessage ->
  content_array rawMessage content ->
  is_Err (parseMessage now rawMessage) = negb (forallb accepted_element content).
Proof.
  intros Hcc Harr.
  pose proof (parseMessage_content now rawMessage Hcc) as Hpm.
  rewrite (parseMessageContent_array _ _ Harr) in Hpm.
  rewrite <- (parseContentBlocks_range_accepted content []).
  destruct (parseContentBlocks_range content []) as [blocks | e].
  - destruct Hpm as (msg & -> & _). reflexivity.
  - by rewrite Hpm.
Qed.

(** X7. A result record always decodes, and the content of the Result
    message is one text block holding the rendering of the [result] field
    when the record has one (whatever its type, null included), and is
    empty when it has none. *)
Theorem parseMessage_result_content (now : Time) (rawMessage : gmap string value) :
  assert_string (index rawMessage "type") = Some MessageTypeResult ->
  exists m,
    parseMessage now rawMessage = Ok (Result m) /\
    Message_Content (Result m) =
      match rawMessage !! "result" with
      | Some result => [TextBlock (fmt_Sprintf_v result)]
      | None => []
      end.
Proof.
  intros Ht. rewrite (parseMessage_typed _ _ _ Ht). simpl.
  unfold parseResultMessage. eexists. split; [reflexivity |]. simpl.
  by destruct (rawMessage !! "result").
Qed.

End DecoderFurther.

(** ** The read loops *)

Section ReadLoops.
Context `{GoRuntime}.
Variable w : World.t.

Lemma nonblank_cons (line : string) (rest : list string) :
  nonblank (line :: rest) =
    if decide (line = "") then nonblank rest else line :: nonblank rest.
Proof.
  unfold nonblank. rewrite filter_cons.
  destruct (decide (line = "")) as [-> | Hne].
  - by rewrite decide_False by (intros Hn; by apply Hn).
  - by rewrite decide_True by done.
Qed.

(** X8. Empty lines are of no consequence: both read loops give on the
    scanned lines what they give on the non-empty ones. *)
Theorem scan_skips_empty_lines (lines : list string) (tick : nat)
    (messages : list Message) :
  readMessages_scan w tick lines messages =
    readMessages_scan w tick (nonblank lines) messages
  /\ streamMessages_scan w tick lines messages =
       streamMessages_scan w tick (nonblank lines) messages.
Proof.
  revert tick messages.
  induction lines as [| line rest IH]; intros tick messages; [done |].
  rewrite nonblank_cons. simpl.
  destruct (decide (line = "")) as [-> | Hne]; [apply IH |].
  cbn [readMessages_scan streamMessages_scan].
  destruct (decide (line = "")) as [Hempty | _]; [done |].
  destruct (json_Unmarshal line) as [rawMessage | e]; [| done].
  destruct (parseMessage (World.clock w tick) rawMessage) as [message | e]; [| done].
  simpl. split; [apply IH |].
  destruct (World.ctxDone w (length messages)); [done | apply IH].
Qed.

(** What the batch loop returns extends what it was given by one message
    per non-empty line, the message at each place being the decode of the
    line at that place, at the next reading of the clock. *)
Lemma readMessages_scan_decodes (lines : list string) :
  forall (tick : nat) (given messages : list Message),
    readMessages_scan w tick lines given = Ok messages ->
    exists new,
      messages = given ++ new /\
      length new = length (nonblank lines) /\
      forall (i : nat) (line : string),
        nonblank lines !! i = Some line ->
        exists rawMessage message,
          json_Unmarshal line = Ok rawMessage /\
          parseMessage (World.clock w (tick + i)) rawMessage = Ok message /\
          new !! i = Some message.
Proof.
  induction lines as [| line rest IH]; intros tick given messages Hr.
  - simpl in Hr. injection Hr as <-. exists []. rewrite app_nil_r.
    repeat split; done.
  - rewrite nonblank_cons. simpl in Hr.
    destruct (decide (line = "")) as [-> | Hne]; [by apply IH |].
    destruct (json_Unmarshal line) as [rawMessage | e] eqn:Hraw; [| done].
    destruct (parseMessage (World.clock w tick) rawMessage) as [message | e] eqn:Hmsg;
      simpl in Hr; [| done].
    apply IH in Hr as (new & -> & Hlen & Hnth).
    exists (message :: new). rewrite <- app_assoc. split; [done |].
    split; [simpl; by rewrite Hlen |].
    intros [| i] line' Hi; simpl in Hi.
    + injection Hi as <-. exists rawMessage, message.
      rewrite Nat.add_0_r. done.
    + destruct (Hnth i line' Hi) as (raw' & msg' & Hu & Hp & Hn).
      exists raw', msg'. replace (tick + S i)%nat with (S tick + i)%nat by lia. done.
Qed.

(** X9. When the batch loop succeeds it returns one message per
    non-empty line, in line order: the message at place [i] is the decode
    of the [i]-th non-empty line, at the [i]-th reading of the clock. *)
Theorem readMessages_scan_in_order (lines : list string) (messages : list Message) :
  readMessages_scan w 0 lines [] = Ok messages ->
  length messages = length (nonblank lines) /\
  forall (i : nat) (line : string),
    nonblank lines !! i = Some line ->
    exists rawMessage message,
      json_Unmarshal line = Ok rawMessage /\
      parseMessage (World.clock w i) rawMessage = Ok message /\
      messages !! i = Some message.
Proof.
  intros Hr. apply readMessages_scan_decodes in Hr as (new & -> & Hlen & Hnth).
  simpl. split; [done |]. intros i line Hi. by apply Hnth.
Qed.

Lemma readMessages_scan_failure (lines : list string) :
  forall (tick : nat) (given : list Message) (e : error),
    readMessages_scan w tick lines given = Err e ->
    exists before line after messages,
      lines = before ++ line :: after /\
      line <> "" /\
      readMessages_scan w tick before given = Ok messages /\
      ((exists cause, json_Unmarshal line = Err cause /\
                      e = CLIJSONDecodeError line (Some cause)) \/
       (exists rawMessage,
          json_Unmarshal line = Ok rawMessage /\
          parseMessage (World.clock w (tick + length (nonblank before))) rawMessage
            = Err e)).
Proof.
  induction lines as [| line rest IH]; intros tick given e Hr; simpl in Hr; [done |].
  destruct (decide (line = "")) as [-> | Hne].
  - apply IH in Hr as (before & line & after & messages & -> & Hline & Hbefore & Hwhy).
    exists ("" :: before), line, after, messages.
    rewrite nonblank_cons. simpl. repeat split; done.
  - destruct (json_Unmarshal line) as [rawMessage | cause] eqn:Hraw.
    + destruct (parseMessage (World.clock w tick) rawMessage) as [message | e'] eqn:Hmsg;
        simpl in Hr.
      * apply IH in Hr as (before & line' & after & messages & -> & Hline & Hbefore & Hwhy).
        exists (line :: before), line', after, messages.
        rewrite nonblank_cons. simpl.
        rewrite !decide_False by done. rewrite Hraw, Hmsg. simpl.
        replace (tick + S (length (nonblank before)))%nat
          with (S tick + length (nonblank before))%nat by lia.
        repeat split; done.
      * injection Hr as <-. exists [], line, rest, given.
        simpl. rewrite Nat.add_0_r. repeat split; eauto.
    + injection Hr as <-. exists [], line, rest, given.
      simpl. repeat split; eauto.
Qed.

(** X10. When the batch loop fails, it fails at the first non-empty line
    that does not decode: the lines before it all decode, and the error is
    a [CLIJSONDecodeError], either the one the loop makes from a line that
    is not JSON, carrying that line, or the one [parseMessage] returns for
    it. *)
Theorem readMessages_scan_first_failure (lines : list string) (e : error) :
  readMessages_scan w 0 lines [] = Err e ->
  is_JSONDecodeError e = true /\
  exists before line after messages,
    lines = before ++ line :: after /\
    line <> "" /\
    readMessages_scan w 0 before [] = Ok messages /\
    ((exists cause, json_Unmarshal line = Err cause /\
                    e = CLIJSONDecodeError line (Some cause)) \/
     (exists rawMessage,
        json_Unmarshal line = Ok rawMessage /\
        parseMessage (World.clock w (length messages)) rawMessage = Err e)).
Proof.
  intros Hr.
  apply readMessages_scan_failure in Hr
    as (before & line & after & messages & -> & Hline & Hbefore & Hwhy).
  pose proof (readMessages_scan_decodes _ _ _ _ Hbefore) as (new & -> & Hlen & _).
  simpl in *. rewrite <- Hlen in Hwhy. split.
  - destruct Hwhy as [(cause & _ & ->) | (rawMessage & _ & Hp)]; [done |].
    by eapply parseMessage_Err.
  - exists before, line, after, new. repeat split; done.
Qed.

(** The streaming loop against the batch loop on the same lines. *)
Lemma streamMessages_scan_prefix (lines : list string) :
  forall (tick : nat) (given messages sent : list Message) (e : option error),
    readMessages_scan w tick lines given = Ok messages ->
    streamMessages_scan w tick lines given = (sent, e) ->
    sent `prefix_of` messages /\
    (forall k, (length given <= k < length sent)%nat -> World.ctxDone w k = None) /\
    match e with
    | None => sent = messages
    | Some err => World.ctxDone w (length sent) = Some err
    end.
Proof.
  induction lines as [| line rest IH]; intros tick given messages sent e Hr Hs;
    simpl in Hr, Hs.
  - injection Hr as <-. injection Hs as <- <-.
    repeat split; [done | intros k Hk; lia].
  - destruct (decide (line = "")); [by eapply IH |].
    destruct (json_Unmarshal line) as [rawMessage | e1]; [| done].
    destruct (parseMessage (World.clock w tick) rawMessage) as [message | e2];
      simpl in Hr; [| done].
    destruct (World.ctxDone w (length given)) as [ctxErr |] eqn:Hctx.
    + injection Hs as <- <-.
      apply readMessages_scan_decodes in Hr as (new & -> & _).
      repeat split; [| intros k Hk; lia | done].
      rewrite <- app_assoc. by apply prefix_app_r.
    + destruct (IH _ _ _ _ _ Hr Hs) as (Hpre & Hnone & He).
      repeat split; [done | | done].
      intros k Hk. destruct (decide (k = length given)) as [-> | Hne]; [done |].
      apply Hnone. rewrite length_app. simpl. lia.
Qed.

(** X11. On lines that all decode, what the streaming loop has sent is
    always an initial part of what the batch loop returns: all of it when
    the loop ends without an error, and otherwise the messages sent before
    the select at which the context was done, the error being the
    context's. *)
Theorem streamMessages_scan_against_batch (lines : list string)
    (messages sent : list Message) (e : option error) :
  readMessages_scan w 0 lines [] = Ok messages ->
  streamMessages_scan w 0 lines [] = (sent, e) ->
  sent `prefix_of` messages /\
  match e with
  | None => sent = messages
  | Some err => World.ctxDone w (length sent) = Some err
  end.
Proof.
  intros Hr Hs. destruct (streamMessages_scan_prefix _ _ _ _ _ _ Hr Hs) as (? & _ & ?).
  done.
Qed.

(** Once the streaming loop has left with an error, the lines that
    follow are not looked at. *)
Lemma streamMessages_scan_stops (before : list string) :
  forall (after : list string) (tick : nat) (given sent : list Message) (e : error),
    streamMessages_scan w tick before given = (sent, Some e) ->
    streamMessages_scan w tick (before ++ after) given = (sent, Some e).
Proof.
  induction before as [| line rest IH]; intros after tick given sent e Hs;
    simpl in *; [done |].
  destruct (decide (line = "")); [by apply IH |].
  destruct (json_Unmarshal line) as [rawMessage | e1]; [| done].
  destruct (parseMessage (World.clock w tick) rawMessage) as [message | e2]; [| done].
  destruct (World.ctxDone w (length given)); [done |].
  by apply IH.
Qed.

(** X12. Cancellation: when the context is first done at the select
    after [n] messages were sent, and the output starts with lines
    holding more than [n] records that decode, the streaming loop has
    sent exactly the first [n] messages and reports the context's error;
    nothing is sent after it, whatever the lines that follow hold, lines
    that do not decode included. *)
Theorem streamMessages_scan_cancelled (before after : list string)
    (messages : list Message) (n : nat) (ctxErr : error) :
  readMessages_scan w 0 before [] = Ok messages ->
  (n < length messages)%nat ->
  World.ctxDone w n = Some ctxErr ->
  (forall k, (k < n)%nat -> World.ctxDone w k = None) ->
  streamMessages_scan w 0 (before ++ after) [] = (take n messages, Some ctxErr).
Proof.
  intros Hr Hn Hctx Hbefore.
  apply streamMessages_scan_stops.
  destruct (streamMessages_scan w 0 before []) as [sent e] eqn:Hs.
  destruct (streamMessages_scan_prefix _ _ _ _ _ _ Hr Hs) as (Hpre & Hnone & He).
  simpl in Hnone.
  assert (Hlen : length sent = n).
  { destruct (lt_eq_lt_dec (length sent) n) as [[Hlt | Heq] | Hgt]; [| done |].
    - destruct e as [err |]; [| subst; lia].
      rewrite (Hbefore _ Hlt) in He. done.
    - rewrite Hnone in Hctx by lia. done. }
  destruct Hpre as [rest ->]. rewrite <- Hlen, take_app_length.
  destruct e as [err |].
  - rewrite Hlen, Hctx in He. by injection He as <-.
  - rewrite He in Hlen. lia.
Qed.

End ReadLoops.

(** ** The drivers *)

Section DriversFurther.
Context `{GoRuntime}.
Variable w : World.t.

(** X14. [Query] returns without an error exactly when the executable
    is found, the pipes are made, the child starts, the prompt is
    written, the output is read and decoded without an error, and the
    child exits with status 0. *)
Theorem Query_succeeds_iff (prompt : string) (options : Options.t) :
  (Query w prompt (Some options)).2 = None <->
  launches w options /\
  World.Write w prompt = None /\
  is_Err (readOutput w (Pipe.open (World.stdout w)) options) = false /\
  World.Wait w = None.
Proof.
  split.
  - unfold Query, launches, setupCommand, createPipes, waitForCommand, cmd_Wait. simpl.
    destruct (findCLIExecutable w (Options.Executable options)); simpl; [| done].
    destruct (Options.Cwd options);
      destruct (World.StdinPipe w); try done;
      destruct (World.StdoutPipe w); try done;
      destruct (World.StderrPipe w); try done;
      destruct (World.Start w); try done;
      destruct (World.Write w prompt); try done;
      destruct (readOutput w _ options); try done;
      destruct (World.Wait w) as [[] |]; try done.
  - intros (Hl & Hw & Hread & Hwait).
    rewrite (Query_launched _ _ _ Hl Hw).
    destruct (readOutput w _ options); [| done].
    unfold waitForCommand, cmd_Wait. by rewrite Hwait.
Qed.

(** X15. Every error [Query] returns is a [CLINotFoundError], a
    [CLIConnectionError] or a [ProcessError]. *)
Theorem Query_errors (prompt : string) (options : option Options.t) :
  match (Query w prompt options).2 with
  | Some e => is_NotFoundError e || is_ConnectionError e || is_ProcessError e = true
  | None => True
  end.
Proof.
  unfold Query.
  destruct (setupCommand w (default Options.zero options)) as [cmd | e] eqn:Hcmd.
  - unfold createPipes, handleReadError, waitForCommand, cmd_Wait.
    repeat case_match; simpl in *; simplify_eq; done.
  - simpl. unfold setupCommand in Hcmd.
    destruct (findCLIExecutable w _) as [path | e'] eqn:Hfind; simpl in Hcmd.
    + by destruct (Options.Cwd _).
    + injection Hcmd as <-. by apply findCLIExecutable_Err in Hfind as [path ->].
Qed.

Lemma streamMessages_scan_error (lines : list string) :
  forall (tick : nat) (given sent : list Message) (e : error),
    streamMessages_scan w tick lines given = (sent, Some e) ->
    is_JSONDecodeError e = true \/ World.ctxDone w (length sent) = Some e.
Proof.
  induction lines as [| line rest IH]; intros tick given sent e Hs; simpl in Hs; [done |].
  destruct (decide (line = "")); [by eapply IH |].
  destruct (json_Unmarshal line) as [rawMessage | e1]; [| injection Hs as <- <-; by left].
  destruct (parseMessage (World.clock w tick) rawMessage) as [message | e2] eqn:Hp.
  - destruct (World.ctxDone w (length given)) as [ctxErr |] eqn:Hctx.
    + injection Hs as <- <-. by right.
    + by eapply IH.
  - injection Hs as <- <-. left. by eapply parseMessage_Err.
Qed.

(** X16. Every error [QueryStream] sends is a [CLINotFoundError], a
    [CLIConnectionError], a [ProcessError], a [CLIJSONDecodeError], or
    the error of the context at a select where it was done. *)
Theorem QueryStream_errors (prompt : string) (options : option Options.t) :
  match (QueryStream w prompt options).2 with
  | Some e =>
      is_NotFoundError e || is_ConnectionError e || is_ProcessError e
        || is_JSONDecodeError e = true
      \/ exists n, World.ctxDone w n = Some e
  | None => True
  end.
Proof.
  unfold QueryStream.
  destruct (setupStreamCommand w _) as [cmd | e] eqn:Hcmd.
  - unfold createStreamPipes.
    destruct (World.StdinPipe w); [by left |].
    destruct (World.StdoutPipe w); [by left |].
    destruct (World.StderrPipe w); [by left |].
    destruct (World.Start w); [by left |].
    unfold streamMessages. destruct (bufio_Scan _) as [lines scanErr].
    destruct (streamMessages_scan w 0 lines []) as [sent [e |]] eqn:Hs; simpl.
    + destruct (streamMessages_scan_error _ _ _ _ _ Hs) as [Hj | Hc].
      * left. rewrite Hj. by rewrite !orb_true_r.
      * right. eauto.
    + destruct scanErr; simpl; [by left |].
      unfold waitForStreamCommand, cmd_Wait. simpl.
      destruct (World.Wait w) as [[] |]; simpl; try done; by left.
  - simpl. unfold setupStreamCommand in Hcmd.
    destruct (findCLIExecutable w _) as [path | e'] eqn:Hfind; simpl in Hcmd.
    + by destruct (Options.Cwd _).
    + injection Hcmd as <-. apply findCLIExecutable_Err in Hfind as [path ->].
      by left.
Qed.

(** X17. Whenever [Query] fails to read the output, be it a line that
    does not decode, a scanner error or a failed read of text output, it
    returns no message and a [ProcessError] with exit code -1 whose text
    is what the child wrote to its standard error, or the placeholder
    when that cannot be read. *)
Theorem Query_read_failure_stderr (prompt : string) (options : Options.t) (err : error) :
  launches w options ->
  World.Write w prompt = None ->
  readOutput w (Pipe.open (World.stdout w)) options = Err err ->
  Query w prompt (Some options) =
    ([], Some (ProcessError (-1)
                 (match Output.fault (World.stderr w) with
                  | None => Output.data (World.stderr w)
                  | Some _ => "failed to read stderr"
                  end) "")).
Proof.
  intros Hl Hw Hread. rewrite (Query_launched _ _ _ Hl Hw), Hread.
  unfold handleReadError, io_ReadAll. simpl.
  by destruct (Output.fault (World.stderr w)).
Qed.

(** X18. An executable named in the options that does not exist is
    reported as a [CLINotFoundError] naming it, by both drivers, without
    a message and without falling back on the search. *)
Theorem Query_executable_missing (prompt : string) (options : Options.t) (path : string) :
  Options.Executable options = Some path ->
  path <> "" ->
  World.Stat w path = false ->
  Query w prompt (Some options) = ([], Some (CLINotFoundError path)) /\
  QueryStream w prompt (Some options) = ([], Some (CLINotFoundError path)).
Proof.
  intros Hexe Hpath Hstat.
  unfold Query, QueryStream, setupCommand, setupStreamCommand, findCLIExecutable. simpl.
  rewrite Hexe. rewrite decide_True by done. rewrite Hstat. done.
Qed.

End DriversFurther.

(** ** The argument builder *)

Section ArgumentsFurther.
Context `{GoRuntime}.

Lemma addPromptArgs_extends (args : list string) (options : Options.t) :
  exists suffix, addPromptArgs args options = args ++ suffix.
Proof.
  unfold addPromptArgs.
  repeat case_match; rewrite <- ?app_assoc; eexists; try reflexivity;
    by rewrite app_nil_r.
Qed.

Lemma addModelAndToolArgs_extends (args : list string) (options : Options.t) :
  exists suffix, addModelAndToolArgs args options = args ++ suffix.
Proof.
  unfold addModelAndToolArgs.
  repeat case_match; rewrite <- ?app_assoc; eexists; try reflexivity;
    by rewrite app_nil_r.
Qed.

Lemma addSessionArgs_extends (args : list string) (options : Options.t) :
  exists suffix, addSessionArgs args options = args ++ suffix.
Proof.
  unfold addSessionArgs.
  repeat case_match; rewrite <- ?app_assoc; eexists; try reflexivity;
    by rewrite app_nil_r.
Qed.

Lemma buildCommandArgs_around_output (options : Options.t) :
  exists before after,
    buildCommandArgs options =
      "--print" :: before
        ++ ["--output-format"; effectiveOutputFormat options]
        ++ (if emits_verbose options then ["--verbose"] else [])
        ++ after.
Proof.
  unfold buildCommandArgs.
  destruct (addPromptArgs_extends ["--print"] options) as [s1 ->].
  destruct (addModelAndToolArgs_extends (["--print"] ++ s1) options) as [s2 ->].
  destruct (addSessionArgs_extends ((["--print"] ++ s1) ++ s2) options) as [s3 ->].
  rewrite addOutputArgs_eq.
  match goal with
  | |- context [addMCPArgs ?a options] =>
      destruct (addMCPArgs_extends a options) as [s4 ->]
  end.
  match goal with
  | |- context [addPermissionArgs ?a options] =>
      destruct (addPermissionArgs_extends a options) as [s5 ->]
  end.
  match goal with
  | |- context [addMiscArgs ?a options] =>
      destruct (addMiscArgs_extends a options) as [s6 ->]
  end.
  exists (s1 ++ s2 ++ s3), (s4 ++ s5 ++ s6).
  simpl. by rewrite <- !app_assoc.
Qed.

(** X19. Every argument list starts with [--print] and holds
    [--output-format] directly followed by the effective format, and
    then [--verbose] when it is emitted. For the options [QueryStream]
    prepares, whatever format and verbosity the caller asked for, the list
    holds [--output-format stream-json --verbose]. *)
Theorem buildCommandArgs_shape (options : Options.t) :
  (exists before after,
     buildCommandArgs options =
       "--print" :: before
         ++ ["--output-format"; effectiveOutputFormat options]
         ++ (if emits_verbose options then ["--verbose"] else [])
         ++ after)
  /\ (exists before after,
        buildCommandArgs (prepareStreamOptions options) =
          "--print" :: before
            ++ ["--output-format"; OutputFormatStreamJSON; "--verbose"] ++ after).
Proof.
  split; [apply buildCommandArgs_around_output |].
  destruct (buildCommandArgs_around_output (prepareStreamOptions options))
    as (before & after & Heq).
  exists before, after. rewrite Heq.
  replace (emits_verbose (prepareStreamOptions options)) with true; [done |].
  unfold emits_verbose. simpl. by destruct (Options.Verbose options) as [[|] |].
Qed.

Lemma unset_if_empty_args (o : option string) (flag : string) (args : list string) :
  match unset_if_empty o with
  | Some p => if decide (p <> "") then args ++ [flag; p] else args
  | None => args
  end =
  match o with
  | Some p => if decide (p <> "") then args ++ [flag; p] else args
  | None => args
  end.
Proof.
  destruct o as [p |]; simpl; [| done].
  destruct (decide (p <> "")) as [Hne | He]; simpl; [| done].
  by rewrite decide_True by done.
Qed.

(** X20. The argument list cannot tell an option set to the empty
    string from one left unset, nor a flag set to false from one left
    unset, [Verbose] included; and it does not depend on [MCPTools],
    [Cwd], [AbortController] and [Executable]. *)
Theorem buildCommandArgs_canonical (options : Options.t) :
  buildCommandArgs (canonical options) = buildCommandArgs options.
Proof.
  assert (H1 : forall args, addPromptArgs args (canonical options) = addPromptArgs args options).
  { intros args. unfold addPromptArgs. simpl. by rewrite !unset_if_empty_args. }
  assert (H2 : forall args,
            addModelAndToolArgs args (canonical options) = addModelAndToolArgs args options).
  { intros args. unfold addModelAndToolArgs. simpl. by rewrite !unset_if_empty_args. }
  assert (H3 : forall args, addSessionArgs args (canonical options) = addSessionArgs args options).
  { intros args. unfold addSessionArgs. simpl. rewrite !unset_if_empty_args.
    by destruct (Options.Continue options) as [[|] |]. }
  assert (H4 : forall args, addOutputArgs args (canonical options) = addOutputArgs args options).
  { intros args. unfold addOutputArgs. simpl.
    by destruct (Options.Verbose options) as [[|] |]. }
  assert (H5 : forall args, addMCPArgs args (canonical options) = addMCPArgs args options).
  { intros args. unfold addMCPArgs. simpl. by rewrite !unset_if_empty_args. }
  assert (H6 : forall args,
            addPermissionArgs args (canonical options) = addPermissionArgs args options).
  { intros args. unfold addPermissionArgs. simpl. rewrite !unset_if_empty_args.
    by destruct (Options.DangerouslySkipPermissions options) as [[|] |]. }
  assert (H7 : forall args, addMiscArgs args (canonical options) = addMiscArgs args options).
  { intros args. unfold addMiscArgs. simpl.
    destruct (Options.Debug options) as [[|] |]; simpl; by rewrite !unset_if_empty_args. }
  unfold buildCommandArgs. by rewrite H1, H2, H3, H4, H5, H6, H7.
Qed.

Lemma fold_add_dir (dirs : list string) :
  forall args : list string,
    fold_left (fun args dir => args ++ ["--add-dir"; dir]) dirs args =
      args ++ add_dir_args dirs.
Proof.
  induction dirs as [| dir dirs IH]; intros args; simpl.
  - by rewrite app_nil_r.
  - rewrite IH. unfold add_dir_args. simpl. by rewrite <- app_assoc.
Qed.

(** X21. The argument list ends with [--add-dir dir] for each directory
    of [AddDir], in the order given. *)
Theorem buildCommandArgs_add_dir (options : Options.t) :
  exists before,
    buildCommandArgs options = before ++ add_dir_args (Options.AddDir options).
Proof.
  unfold buildCommandArgs, addMiscArgs. rewrite fold_add_dir. eauto.
Qed.

End ArgumentsFurther.

(** ** The further properties on the worked inputs *)

(** X1 on the telemetry record. *)
Lemma parseMessage_Type_telemetry :
  Message_Type
    (System (SystemMessage.Build "telemetry" None None "s1" [] [] None None 100)) =
  if recognised_type "telemetry" then "telemetry" else MessageTypeSystem.
Proof.
  apply (@parseMessage_Type sample_runtime 100 telemetry_raw "telemetry").
  - vm_compute. reflexivity.
  - vm_compute. reflexivity.
Defined.

(** X2 on the assistant record. *)
Lemma parseMessage_common_fields_assistant :
  Message_SessionID
    (Assistant (AssistantMessage.Build [TextBlock "hi"] None "s1" 100)) =
    default "" (assert_string (index assistant_raw "session_id"))
  /\ (forall m,
        Assistant (AssistantMessage.Build [TextBlock "hi"] None "s1" 100) = Assistant m ->
        AssistantMessage.ParentToolUseID m =
          unset_if_empty (assert_string (index assistant_raw "parent_tool_use_id")))
  /\ (forall m,
        Assistant (AssistantMessage.Build [TextBlock "hi"] None "s1" 100) = User m ->
        UserMessage.ParentToolUseID m =
          unset_if_empty (assert_string (index assistant_raw "parent_tool_use_id"))).
Proof.
  apply (@parseMessage_common_fields sample_runtime 100 assistant_raw).
  vm_compute. reflexivity.
Defined.

(** X3 on the system record with tools and servers of mixed types. *)
Lemma parseMessage_system_init :
  exists m,
    @parseMessage sample_runtime 100 init_raw = Ok (System m) /\
    SystemMessage.Tools m = omap assert_string (array_field init_raw "tools") /\
    SystemMessage.MCPServers m = omap server_entry (array_field init_raw "mcp_servers") /\
    (forall s, SystemMessage.APIKeySource m = Some s <->
               nonempty_string_field init_raw "apiKeySource" s) /\
    (forall s, SystemMessage.Cwd m = Some s <->
               nonempty_string_field init_raw "cwd" s) /\
    (forall s, SystemMessage.Model m = Some s <->
               nonempty_string_field init_raw "model" s) /\
    (forall s, SystemMessage.PermissionMode m = Some s <->
               nonempty_string_field init_raw "permissionMode" s).
Proof.
  apply (@parseMessage_system sample_runtime 100 init_raw).
  vm_compute. reflexivity.
Defined.

Example parseMessage_init :
  @parseMessage sample_runtime 100 init_raw =
    Ok (System (SystemMessage.Build "init" None (Some "/w") "" ["Read"; "Write"]
                  [MCPServer.Build "fs" "connected"; MCPServer.Build "" ""]
                  None None 100)).
Proof. vm_compute. reflexivity. Qed.

(** X5 on a tool_result element. *)
Lemma parseContentBlock_Type_tool_result :
  ContentBlock_Type (ToolResultBlock "t1" (VString "done") false) =
  announced_block_type
    (VMap {[ "type" := VString "tool_result"; "tool_use_id" := VString "t1";
             "content" := VString "done" ]}).
Proof.
  apply (@parseContentBlock_Type sample_runtime).
  vm_compute. reflexivity.
Defined.

(** X6 on the user record with three elements. *)
Lemma parseMessage_accepts_blocks :
  is_Err (@parseMessage sample_runtime 100 blocks_raw) =
  negb (forallb accepted_element blocks_content).
Proof.
  apply (@parseMessage_accepts sample_runtime 100 blocks_raw blocks_content).
  - right. vm_compute. reflexivity.
  - exists blocks_message. split; vm_compute; reflexivity.
Defined.

(** X7 on a result record with a result string. *)
Lemma parseMessage_result_content_answer :
  exists m,
    @parseMessage sample_runtime 100 answer_raw = Ok (Result m) /\
    Message_Content (Result m) =
      match answer_raw !! "result" with
      | Some result => [TextBlock (@fmt_Sprintf_v sample_runtime result)]
      | None => []
      end.
Proof.
  apply (@parseMessage_result_content sample_runtime 100 answer_raw).
  vm_compute. reflexivity.
Defined.

Example parseMessage_answer_content :
  map_result Message_Content (@parseMessage sample_runtime 100 answer_raw) =
    Ok [TextBlock "done"].
Proof. vm_compute. reflexivity. Qed.

(** X9 on two records with an empty line between them. *)
Lemma readMessages_scan_in_order_two :
  length [Assistant (AssistantMessage.Build [TextBlock "hi"] None "s1" 100);
          Result (ResultMessage.Build "" 0 0 false 1 "s1" (Some 0.25%float) None None 101)]
    = length (nonblank [assistant_line; ""; result_line]) /\
  forall (i : nat) (line : string),
    nonblank [assistant_line; ""; result_line] !! i = Some line ->
    exists rawMessage message,
      @json_Unmarshal sample_runtime line = Ok rawMessage /\
      @parseMessage sample_runtime (World.clock (run None "" "" None) i) rawMessage
        = Ok message /\
      [Assistant (AssistantMessage.Build [TextBlock "hi"] None "s1" 100);
       Result (ResultMessage.Build "" 0 0 false 1 "s1" (Some 0.25%float) None None 101)]
        !! i = Some message.
Proof.
  apply (@readMessages_scan_in_order sample_runtime (run None "" "" None)
           [assistant_line; ""; result_line]).
  vm_compute. reflexivity.
Defined.

(** X10 on a line that is not JSON between two records. *)
Lemma readMessages_scan_first_failure_not_json :
  is_JSONDecodeError
    (CLIJSONDecodeError "not json"
       (Some (ErrorString "invalid character looking for beginning of value"))) = true /\
  exists before line after messages,
    [assistant_line; "not json"; result_line] = before ++ line :: after /\
    line <> "" /\
    @readMessages_scan sample_runtime (run None "" "" None) 0 before [] = Ok messages /\
    ((exists cause,
        @json_Unmarshal sample_runtime line = Err cause /\
        CLIJSONDecodeError "not json"
          (Some (ErrorString "invalid character looking for beginning of value"))
          = CLIJSONDecodeError line (Some cause)) \/
     (exists rawMessage,
        @json_Unmarshal sample_runtime line = Ok rawMessage /\
        @parseMessage sample_runtime
          (World.clock (run None "" "" None) (length messages)) rawMessage =
          Err (CLIJSONDecodeError "not json"
                 (Some (ErrorString "invalid character looking for beginning of value"))))).
Proof.
  apply (@readMessages_scan_first_failure sample_runtime (run None "" "" None)
           [assistant_line; "not json"; result_line]).
  vm_compute. reflexivity.
Defined.

(** X11 on two records, the context done after the first message. *)
Lemma streamMessages_scan_against_batch_cancelled :
  [Assistant (AssistantMessage.Build [TextBlock "hi"] None "s1" 100)] `prefix_of`
    [Assistant (AssistantMessage.Build [TextBlock "hi"] None "s1" 100);
     Result (ResultMessage.Build "" 0 0 false 1 "s1" (Some 0.25%float) None None 101)] /\
  World.ctxDone (run_cancelled 1 "" "" None)
    (length [Assistant (AssistantMessage.Build [TextBlock "hi"] None "s1" 100)]) =
    Some (ErrorString "context canceled").
Proof.
  apply (@streamMessages_scan_against_batch sample_runtime (run_cancelled 1 "" "" None)
           [assistant_line; result_line]
           [Assistant (AssistantMessage.Build [TextBlock "hi"] None "s1" 100);
            Result (ResultMessage.Build "" 0 0 false 1 "s1" (Some 0.25%float) None None 101)]
           [Assistant (AssistantMessage.Build [TextBlock "hi"] None "s1" 100)]
           (Some (ErrorString "context canceled"))).
  - vm_compute. reflexivity.
  - vm_compute. reflexivity.
Defined.

(** X12 on the same run, with a line that is not JSON after the two
    records. *)
Lemma streamMessages_scan_cancelled_after_one :
  @streamMessages_scan sample_runtime (run_cancelled 1 "" "" None) 0
    ([assistant_line; result_line] ++ ["not json"]) [] =
  (take 1
     [Assistant (AssistantMessage.Build [TextBlock "hi"] None "s1" 100);
      Result (ResultMessage.Build "" 0 0 false 1 "s1" (Some 0.25%float) None None 101)],
   Some (ErrorString "context canceled")).
Proof.
  apply (@streamMessages_scan_cancelled sample_runtime (run_cancelled 1 "" "" None)).
  - vm_compute. reflexivity.
  - simpl. lia.
  - reflexivity.
  - intros k Hk. assert (k = 0)%nat as -> by lia. reflexivity.
Defined.

(** X17 on a child that prints a line that is not JSON. *)
Lemma Query_read_failure_stderr_boom :
  @Query sample_runtime (run None ("not json" +:+ EOL) "boom" None) "hi"
    (Some Options.zero) =
  ([], Some (ProcessError (-1)
               (match Output.fault (World.stderr (run None ("not json" +:+ EOL) "boom" None)) with
                | None => Output.data (World.stderr (run None ("not json" +:+ EOL) "boom" None))
                | Some _ => "failed to read stderr"
                end) "")).
Proof.
  apply (@Query_read_failure_stderr sample_runtime
           (run None ("not json" +:+ EOL) "boom" None) "hi" Options.zero
           (CLIJSONDecodeError "not json"
              (Some (ErrorString "invalid character looking for beginning of value")))).
  - apply run_launches. reflexivity.
  - reflexivity.
  - vm_compute. reflexivity.
Defined.

(** X18 where nothing is installed and the options name [/opt/claude]. *)
Lemma Query_executable_missing_opt :
  @Query sample_runtime run_nothing_installed "hi" (Some custom_options) =
    ([], Some (CLINotFoundError "/opt/claude")) /\
  @QueryStream sample_runtime run_nothing_installed "hi" (Some custom_options) =
    ([], Some (CLINotFoundError "/opt/claude")).
Proof.
  apply (@Query_executable_missing sample_runtime run_nothing_installed "hi"
           custom_options "/opt/claude").
  - reflexivity.
  - discriminate.
  - reflexivity.
Defined.

(** The streaming loop on a line that is not JSON after a record: the
    record's message stays sent. *)
Lemma streamMessages_scan_first_malformed_after_one :
  @streamMessages_scan sample_runtime (run None "" "" None) 0
    ([assistant_line] ++ "not json" :: [result_line]) [] =
  ([Assistant (AssistantMessage.Build [TextBlock "hi"] None "s1" 100)],
   Some (CLIJSONDecodeError "not json"
           (Some (ErrorString "invalid character looking for beginning of value")))).
Proof.
  apply (@streamMessages_scan_first_malformed sample_runtime (run None "" "" None)
           [assistant_line] [result_line] "not json").
  - vm_compute. reflexivity.
  - discriminate.
  - vm_compute. reflexivity.
Defined.

Example buildCommandArgs_custom :
  @buildCommandArgs sample_runtime custom_options =
    ["--print"; "--max-turns"; "3"; "--allowedTools"; "Read,LS";
     "--output-format"; "json"; "--add-dir"; "/a"; "--add-dir"; "/b"].
Proof. vm_compute. reflexivity. Qed.
